(** * clonellm: conversation memory and the CloneLLM orchestrator

    A shallow embedding of [src/clonellm/memory.py] and
    [src/clonellm/core.py], followed by the properties of the
    specification that were settled against it.

    Conventions of the embedding.
    - Python [int] is [Z]; [str] is [string]; [None] in an [Optional]
      position is [None] of [option].
    - A Python call either returns a value or raises: [outcome].  A
      method that may mutate state is a function [S -> outcome A * S];
      when it raises, the state component is the state at the raise.
    - Objects that are shared by reference (the histories held in
      [_store]) live in a heap and are named by their location.
    - An attribute read on an instance looks in the instance first and
      falls back on the class attribute of the same name. *)

From stdpp Require Import base numbers list strings gmap.
From Stdlib Require Import DecimalString DecimalNat.

Open Scope string_scope.
Open Scope list_scope.

(** ** Python exceptions and outcomes *)

Inductive exn : Type :=
  | TypeError (msg : string)
  | ValueError (msg : string)
  | AttributeError (msg : string)
  | KeyError (msg : string)
  | BackendError (msg : string).

Inductive outcome (A : Type) : Type :=
  | Return (a : A)
  | Raise (e : exn).
Arguments Return {A} a.
Arguments Raise {A} e.

(** State-and-exception monad used for every stateful function. *)
Definition M (S A : Type) : Type := S → outcome A * S.

Definition ret {S A} (a : A) : M S A := fun s => (Return a, s).
Definition raise {S A} (e : exn) : M S A := fun s => (Raise e, s).
Definition bind {S A B} (c : M S A) (k : A → M S B) : M S B :=
  fun s => match c s with
           | (Return a, s') => k a s'
           | (Raise e, s') => (Raise e, s')
           end.
Definition get_state {S} : M S S := fun s => (Return s, s).
Definition modify_state {S} (f : S → S) : M S unit := fun s => (Return tt, f s).
(** An external call that returns or raises without touching the state. *)
Definition call {S A} (o : outcome A) : M S A := fun s => (o, s).

Notation "'let!' x ':=' c1 'in' c2" := (bind c1 (fun x => c2))
  (at level 10, x name, c1 at level 100, c2 at level 200).
Notation "'do!' c1 'in' c2" := (bind c1 (fun _ => c2))
  (at level 10, c1 at level 100, c2 at level 200).

(** ** [memory.py] *)

Module Memory.

(** A message: a role tag and its text. *)
Record BaseMessage : Type := { role : string; content : string }.

Definition HumanMessage (text : string) : BaseMessage :=
  {| role := "human"; content := text |}.
Definition AIMessage (text : string) : BaseMessage :=
  {| role := "ai"; content := text |}.

(** [class InMemoryHistory]: the [messages] field and the [memory]
    attribute that [add_messages] and [clear] read and write. *)
Record InMemoryHistory : Type := {
  messages : list BaseMessage;
  memory : Z;
}.

(** [lst[start:]] on a Python list: a negative [start] counts from the
    end, and the bound is clamped to [0 .. len(lst)]. *)
Definition py_slice_from {A} (start : Z) (l : list A) : list A :=
  let n := Z.of_nat (length l) in
  let lo := if (start <? 0)%Z then Z.max (start + n) 0 else Z.min start n in
  drop (Z.to_nat lo) l.

(** [InMemoryHistory.add_messages]: the [for] loop appends one message
    at a time; the slice runs once, after the loop. *)
Definition add_messages (msgs : list BaseMessage) (h : InMemoryHistory)
  : InMemoryHistory :=
  let appended := foldl (fun acc message => acc ++ [message]) (messages h) msgs in
  if (0 <? memory h)%Z
  then {| messages := py_slice_from (- memory h) appended; memory := memory h |}
  else {| messages := appended; memory := memory h |}.

(** [InMemoryHistory.clear]. *)
Definition clear (h : InMemoryHistory) : InMemoryHistory :=
  {| messages := []; memory := memory h |}.

(** [InMemoryHistory(...)]: [__init__(self, memory)] has one required
    parameter besides [self]; a call with any other number of
    positional arguments raises [TypeError] before the body runs.  With
    one argument the body runs, and its only statement,
    [self.memory = memory], assigns an attribute that the class, a
    [BaseModel] of [langchain_core.pydantic_v1], does not declare as a
    field: the assignment raises [ValueError], and [__init__] of the
    base class is never called.  So no call of the constructor returns
    a history. *)
Definition dquote : string := String (Ascii.ascii_of_nat 34) EmptyString.
Definition no_field_memory : exn :=
  ValueError (dquote +:+ "InMemoryHistory" +:+ dquote +:+ " object has no field "
              +:+ dquote +:+ "memory" +:+ dquote).
Definition missing_memory_argument : exn :=
  TypeError "InMemoryHistory.__init__() missing 1 required positional argument: 'memory'".
Definition too_many_arguments (given : nat) : exn :=
  TypeError ("InMemoryHistory.__init__() takes 2 positional arguments but "
             +:+ NilEmpty.string_of_uint (Nat.to_uint given) +:+ " were given").

Definition InMemoryHistory_new (args : list Z) : outcome InMemoryHistory :=
  match args with
  | [] => Raise missing_memory_argument
  | [_] => Raise no_field_memory
  | _ => Raise (too_many_arguments (S (length args)))
  end.

(** The module state: the dict [_store] maps a session id to a
    reference to its history; the histories themselves are on [heap],
    a reference being a position in it.  A key is the Python value it
    was given: a [str], or [None], which is what [_session_id] holds
    when [__init__] first calls [clear_memory]. *)
Abbreviation loc := nat (only parsing).

Record state : Type := {
  _store : gmap (option string) loc;
  heap : list InMemoryHistory;
}.

Definition initial : state := {| _store := ∅; heap := [] |}.

(** Allocation of a new object. *)
Definition alloc (h : InMemoryHistory) : M state loc :=
  fun st => (Return (length (heap st)),
             {| _store := _store st; heap := heap st ++ [h] |}).

Definition store_set (k : option string) (l : loc) : M state unit :=
  modify_state (fun st => {| _store := <[k := l]> (_store st); heap := heap st |}).

(** [k in _store] and [_store[k]]. *)
Definition store_contains (k : option string) : M state bool :=
  fun st => (Return (bool_decide (is_Some (_store st !! k))), st).

Definition store_getitem (k : option string) : M state loc :=
  fun st => match _store st !! k with
            | Some l => (Return l, st)
            | None => (Raise (KeyError (default "None" k)), st)
            end.

(** [get_by_session_id].  In the assignment
    [_store[session_id] = InMemoryHistory()] the right-hand side is
    evaluated first, with no argument. *)
Definition get_by_session_id (session_id : string) : M state loc :=
  let! present := store_contains (Some session_id) in
  do! (if negb present
       then let! h := call (InMemoryHistory_new []) in
            let! l := alloc h in
            store_set (Some session_id) l
       else ret tt) in
  store_getitem (Some session_id).

(** The same function on whatever value it is handed as the id: the
    body does not depend on the id being a [str], and [core.py] hands
    it the value of [_session_id]. *)
Definition get_history (session_id : option string) : M state loc :=
  let! present := store_contains session_id in
  do! (if negb present
       then let! h := call (InMemoryHistory_new []) in
            let! l := alloc h in
            store_set session_id l
       else ret tt) in
  store_getitem session_id.

(** A method call through a reference: the object at [l] is replaced by
    the result of the method. *)
Definition update_at (l : loc) (f : InMemoryHistory → InMemoryHistory)
  : M state unit :=
  modify_state (fun st => {| _store := _store st; heap := alter f l (heap st) |}).

Definition add_messages_at (l : loc) (msgs : list BaseMessage) : M state unit :=
  update_at l (add_messages msgs).

(** The messages read through a reference. *)
Definition messages_at (l : loc) (st : state) : option (list BaseMessage) :=
  messages <$> heap st !! l.

(** The history a session id stands for, if any. *)
Definition history_of (k : option string) (st : state) : option InMemoryHistory :=
  l ← _store st !! k; heap st !! l.

End Memory.

(** ** The words of the specification, for comparison *)

(** "The last [m] appended messages in their original order". *)
Definition last_n {A} (m : nat) (l : list A) : list A :=
  drop (length l - m) l.

(** ** What [core.py] imports from [memory.py] and the file does not define *)

Module MemorySpec.
Import Memory.

(** Modelled from the spec: [clear_session_history], imported by
    [core.py] from [memory.py], is not defined there.  The
    specification's [clear(session_id)] "removes all messages
    associated with [session_id] from future retrieval", "implemented
    as dropping the mapping entry", and "never fails, including when
    [session_id] is unknown". *)
Definition clear_session_history (session_id : option string) : M state unit :=
  modify_state (fun st =>
    {| _store := delete session_id (_store st); heap := heap st |}).

End MemorySpec.

(** ** [core.py] *)

Module Core.

(** [langchain_core.documents.Document]. *)
Record Document : Type := {
  page_content : string;
  metadata : list (string * string);
}.

(** An element of a list passed as documents: a [Document], or an
    object of some other type. *)
Inductive pyobj : Type :=
  | PyDocument (d : Document)
  | PyOther (repr : string).

Definition isinstance_Document (o : pyobj) : bool :=
  match o with PyDocument _ => true | PyOther _ => false end.

(** Handles on the external collaborators. *)
Record TextSplitter : Type := { chunk_size : Z; chunk_overlap : Z }.
Record Embeddings : Type := { embedding_name : string }.
Record ChatLiteLLM : Type := { llm_model : string; llm_api_key : option string }.
Record Chroma : Type := {
  collection_name : string;
  embedding_function : Embeddings;
  persist_directory : option string;
  chunks : list Document;
}.

(** The collections of the vector store's in-process client, by name.
    They belong to the process, not to an index object:
    [Chroma.from_documents] without a persist directory adds to the
    collection of the given name, whatever was stored under it. *)
Abbreviation Backend := (gmap string (list Document)).

(** A chat prompt template, as the sequence of its message templates. *)
Definition ChatPromptTemplate : Type := list string.

(** The [user_profile] argument: [None], a [UserProfile] (of
    [_typing.py], carried here by its [model_dump_json()] text), a
    [dict] or a [str]. *)
Inductive user_profile_t : Type :=
  | UP_None
  | UP_UserProfile (json : string)
  | UP_dict (items : list (string * string))
  | UP_str (s : string).

(** Truth value of the argument in [if self.user_profile:]. *)
Definition user_profile_truthy (p : user_profile_t) : bool :=
  match p with
  | UP_None => false
  | UP_UserProfile _ => true
  | UP_dict items => negb (bool_decide (items = []))
  | UP_str s => negb (bool_decide (s = ""))
  end.

(** Truth value of [self.memory], an [Optional[bool]]. *)
Definition memory_truthy (m : option bool) : bool := default false m.

(** What the code calls into and does not define: the splitter, the
    vector store, the chains, [json.dumps], and the prompt constants of
    [_prompt.py].  [from_documents] is given the collections of the
    process and returns, with its outcome, the collections it leaves:
    what it builds is not a function of its arguments alone.
    [add_documents] returns its outcome together with the index it
    leaves behind. *)
Record Collaborators : Type := {
  split_documents : TextSplitter → list Document → list Document;
  Chroma_open : string → Embeddings → string → outcome Chroma;
  Chroma_from_documents :
    Backend → list Document → Embeddings → string → outcome Chroma * Backend;
  Chroma_afrom_documents :
    Backend → list Document → Embeddings → string → outcome Chroma * Backend;
  Chroma_add_documents : Chroma → list Document → outcome unit * Chroma;
  Chroma_aadd_documents : Chroma → list Document → outcome unit * Chroma;
  json_dumps : list (string * string) → string;
  context_prompt : ChatPromptTemplate;
  user_profile_prompt_format_messages : string → ChatPromptTemplate;
  history_prompt : ChatPromptTemplate;
  contextualize_question_prompt : ChatPromptTemplate;
  question_prompt : ChatPromptTemplate;
  (** [retriever(k) | prompt | llm | StrOutputParser()] on an input. *)
  rag_invoke : Chroma → Z → ChatPromptTemplate → ChatLiteLLM → string → outcome string;
  rag_ainvoke : Chroma → Z → ChatPromptTemplate → ChatLiteLLM → string → outcome string;
  (** The retrieval chain over a history-aware retriever: the index and
      [k], the contextualizing prompt, the answering prompt, the model,
      the chat history and the input; the result is the ["answer"]. *)
  history_invoke : Chroma → Z → ChatPromptTemplate → ChatPromptTemplate →
                   ChatLiteLLM → list Memory.BaseMessage → string → outcome string;
  history_ainvoke : Chroma → Z → ChatPromptTemplate → ChatPromptTemplate →
                    ChatLiteLLM → list Memory.BaseMessage → string → outcome string;
}.

(** Attributes held by the class object [CloneLLM] that the code
    assigns: [__is_fitted] and [db].  The class attributes [_splitter]
    and [_session_id] are [None] and never assigned on the class. *)
Record ClassAttrs : Type := {
  cls_is_fitted : bool;
  cls_db : option Chroma;
}.

Definition class_defaults : ClassAttrs :=
  {| cls_is_fitted := false; cls_db := None |}.

(** An instance.  The first six fields are set by [__init__]; the rest
    are the instance's own entries for attributes that also exist on
    the class ([None]: no entry of its own) and [_llm]. *)
Record CloneLLM : Type := {
  model : string;
  api_key : option string;
  embedding : Embeddings;
  documents : option (list pyobj);
  user_profile : user_profile_t;
  memory : option bool;
  own_llm : option ChatLiteLLM;
  own_splitter : option TextSplitter;
  own_session_id : option string;
  own_db : option Chroma;
  own_is_fitted : option bool;
}.

(** What a method runs in: the class, the receiver, the module state
    of [memory.py], and the collections of the vector store. *)
Record State : Type := {
  cls : ClassAttrs;
  self : CloneLLM;
  mem : Memory.state;
  chroma : Backend;
}.

(** What a constructor runs in. *)
Record World : Type := {
  w_cls : ClassAttrs;
  w_mem : Memory.state;
  w_chroma : Backend;
}.

Definition world_of (s : State) : World :=
  {| w_cls := cls s; w_mem := mem s; w_chroma := chroma s |}.
Definition enter (i : CloneLLM) (w : World) : State :=
  {| cls := w_cls w; self := i; mem := w_mem w; chroma := w_chroma w |}.

(** Attribute reads. *)
Definition is_fitted (s : State) : bool :=
  default (cls_is_fitted (cls s)) (own_is_fitted (self s)).
Definition db (s : State) : option Chroma :=
  match own_db (self s) with Some d => Some d | None => cls_db (cls s) end.
Definition _splitter (s : State) : option TextSplitter := own_splitter (self s).
Definition _session_id (s : State) : option string := own_session_id (self s).

(** Attribute writes on [self]. *)
Definition set_self (f : CloneLLM → CloneLLM) : M State unit :=
  modify_state (fun s =>
    {| cls := cls s; self := f (self s); mem := mem s; chroma := chroma s |}).

Definition with_llm (v : ChatLiteLLM) (i : CloneLLM) : CloneLLM :=
  {| model := model i; api_key := api_key i; embedding := embedding i;
     documents := documents i; user_profile := user_profile i; memory := memory i;
     own_llm := Some v; own_splitter := own_splitter i;
     own_session_id := own_session_id i; own_db := own_db i;
     own_is_fitted := own_is_fitted i |}.
Definition with_splitter (v : TextSplitter) (i : CloneLLM) : CloneLLM :=
  {| model := model i; api_key := api_key i; embedding := embedding i;
     documents := documents i; user_profile := user_profile i; memory := memory i;
     own_llm := own_llm i; own_splitter := Some v;
     own_session_id := own_session_id i; own_db := own_db i;
     own_is_fitted := own_is_fitted i |}.
Definition with_session_id (v : string) (i : CloneLLM) : CloneLLM :=
  {| model := model i; api_key := api_key i; embedding := embedding i;
     documents := documents i; user_profile := user_profile i; memory := memory i;
     own_llm := own_llm i; own_splitter := own_splitter i;
     own_session_id := Some v; own_db := own_db i;
     own_is_fitted := own_is_fitted i |}.
Definition with_db (v : Chroma) (i : CloneLLM) : CloneLLM :=
  {| model := model i; api_key := api_key i; embedding := embedding i;
     documents := documents i; user_profile := user_profile i; memory := memory i;
     own_llm := own_llm i; own_splitter := own_splitter i;
     own_session_id := own_session_id i; own_db := Some v;
     own_is_fitted := own_is_fitted i |}.
Definition with_is_fitted (v : bool) (i : CloneLLM) : CloneLLM :=
  {| model := model i; api_key := api_key i; embedding := embedding i;
     documents := documents i; user_profile := user_profile i; memory := memory i;
     own_llm := own_llm i; own_splitter := own_splitter i;
     own_session_id := own_session_id i; own_db := own_db i;
     own_is_fitted := Some v |}.

(** Attribute writes on the class. *)
Definition set_cls (f : ClassAttrs → ClassAttrs) : M State unit :=
  modify_state (fun s =>
    {| cls := f (cls s); self := self s; mem := mem s; chroma := chroma s |}).

(** A call into [memory.py]. *)
Definition lift_mem {A} (c : M Memory.state A) : M State A :=
  fun s => let '(r, m') := c (mem s) in
           (r, {| cls := cls s; self := self s; mem := m'; chroma := chroma s |}).

(** A call into the vector store that may add to its collections. *)
Definition on_chroma {A} (f : Backend → outcome A * Backend) : M State A :=
  fun s => let '(r, b') := f (chroma s) in
           (r, {| cls := cls s; self := self s; mem := mem s; chroma := b' |}).

Definition _CHROMA_COLLECTION_NAME : string := "clonellm".

(** [a or b] on two optional lists. *)
Definition py_or {A} (a b : option (list A)) : option (list A) :=
  match a with
  | Some (x :: l) => Some (x :: l)
  | _ => b
  end.

(** [str(i)] for a position. *)
Definition str_of_nat (i : nat) : string := NilEmpty.string_of_uint (Nat.to_uint i).

Definition invalid_document_message (i : nat) : string :=
  "document at index " +:+ str_of_nat i +:+ " is not a valid Document".

Definition not_fitted_message : string :=
  "This CloneLLM instance is not fitted yet. Call `fit` using this method.".

Definition none_not_iterable : exn := TypeError "'NoneType' object is not iterable".
Definition none_has_no_attribute (name : string) : exn :=
  AttributeError ("'NoneType' object has no attribute '" +:+ name +:+ "'").

(** The loop of [_check_documents], from position [i] on. *)
Fixpoint check_documents_from (i : nat) (l : list pyobj) : outcome unit :=
  match l with
  | [] => Return tt
  | doc :: rest =>
      if negb (isinstance_Document doc)
      then Raise (ValueError (invalid_document_message i))
      else check_documents_from (S i) rest
  end.

(** The documents of a list whose elements are all [Document]s. *)
Fixpoint as_documents (l : list pyobj) : option (list Document) :=
  match l with
  | [] => Some []
  | PyDocument d :: rest => cons d <$> as_documents rest
  | PyOther _ :: _ => None
  end.

(** [x is None]. *)
Definition is_None {A} (o : option A) : bool :=
  match o with Some _ => false | None => true end.

(** What [_get_retriever], [_get_rag_chain] and
    [_get_rag_chain_with_history] build. *)
Record VectorStoreRetriever : Type := { vectorstore : Chroma; search_k : Z }.
Record RunnableSequence : Type := {
  rs_retriever : VectorStoreRetriever;
  rs_prompt : ChatPromptTemplate;
  rs_llm : ChatLiteLLM;
}.
Record RunnableWithMessageHistory : Type := {
  rh_retriever : VectorStoreRetriever;
  rh_contextualize : ChatPromptTemplate;
  rh_prompt : ChatPromptTemplate;
  rh_llm : ChatLiteLLM;
}.

Section Methods.

Variable B : Collaborators.

(** [_check_documents]. *)
Definition _check_documents (docs : option (list pyobj)) : M State unit :=
  let! s := get_state in
  match py_or docs (documents (self s)) with
  | None => raise none_not_iterable
  | Some l => call (check_documents_from 0 l)
  end.

(** [self._splitter.split_documents(self.documents)].  The splitter
    iterates over its argument and reads [page_content] of each
    element. *)
Definition split_self_documents : M State (list Document) :=
  let! s := get_state in
  match _splitter s with
  | None => raise (none_has_no_attribute "split_documents")
  | Some sp =>
      match documents (self s) with
      | None => raise none_not_iterable
      | Some l =>
          match as_documents l with
          | Some ds => ret (split_documents B sp ds)
          | None => raise (AttributeError "object has no attribute 'page_content'")
          end
      end
  end.

(** The body shared by [fit] and [afit], which differ in the
    vector-store constructor they call. *)
Definition fit_with
  (from_documents :
     Backend → list Document → Embeddings → string → outcome Chroma * Backend)
  : M State unit :=
  do! _check_documents None in
  let! docs := split_self_documents in
  let! s := get_state in
  let! d := on_chroma (fun b =>
              from_documents b docs (embedding (self s)) _CHROMA_COLLECTION_NAME) in
  do! set_self (with_db d) in
  set_self (with_is_fitted true).

Definition fit : M State unit := fit_with (Chroma_from_documents B).
Definition afit : M State unit := fit_with (Chroma_afrom_documents B).

(** [_check_is_fitted]. *)
Definition _check_is_fitted (from_update : bool) : M State unit :=
  let! s := get_state in
  if negb (is_fitted s) || is_None (db s)
     || (if from_update then is_None (_splitter s) else false)
  then raise (AttributeError not_fitted_message)
  else ret tt.

(** [self.db.add_documents(documents)]: the index that [self.db]
    resolves to is changed in place, wherever it is held. *)
Definition db_add
  (add : Chroma → list Document → outcome unit * Chroma)
  (docs : list Document) : M State unit :=
  fun s =>
    match own_db (self s) with
    | Some d =>
        let '(r, d') := add d docs in
        (r, {| cls := cls s; self := with_db d' (self s); mem := mem s;
               chroma := chroma s |})
    | None =>
        match cls_db (cls s) with
        | Some d =>
            let '(r, d') := add d docs in
            (r, {| cls := {| cls_is_fitted := cls_is_fitted (cls s); cls_db := Some d' |};
                   self := self s; mem := mem s; chroma := chroma s |})
        | None => (Raise (none_has_no_attribute "add_documents"), s)
        end
    end.

(** The body shared by [update] and [aupdate]. *)
Definition update_with
  (add : Chroma → list Document → outcome unit * Chroma)
  (docs : list pyobj) : M State unit :=
  do! _check_is_fitted true in
  do! _check_documents (Some docs) in
  let! chunks := split_self_documents in
  db_add add chunks.

Definition update (docs : list pyobj) : M State unit :=
  update_with (Chroma_add_documents B) docs.
Definition aupdate (docs : list pyobj) : M State unit :=
  update_with (Chroma_aadd_documents B) docs.

(** The property [_user_profile]. *)
Definition _user_profile (i : CloneLLM) : string :=
  match user_profile i with
  | UP_UserProfile json => json
  | UP_dict items => json_dumps B items
  | UP_str s => s
  | UP_None => "None"
  end.

Definition read_llm : M State ChatLiteLLM :=
  let! s := get_state in
  match own_llm (self s) with
  | Some llm => ret llm
  | None => raise (AttributeError "'CloneLLM' object has no attribute '_llm'")
  end.

(** [_get_retriever]. *)
Definition _get_retriever : M State VectorStoreRetriever :=
  let! s := get_state in
  match db s with
  | Some d => ret {| vectorstore := d; search_k := 1 |}
  | None => raise (none_has_no_attribute "as_retriever")
  end.

(** [_get_rag_chain]. *)
Definition _get_rag_chain : M State RunnableSequence :=
  let! s := get_state in
  let prompt := context_prompt B in
  let prompt :=
    if user_profile_truthy (user_profile (self s))
    then prompt ++ user_profile_prompt_format_messages B (_user_profile (self s))
    else prompt in
  let prompt := prompt ++ question_prompt B in
  let! retriever := _get_retriever in
  let! llm := read_llm in
  ret {| rs_retriever := retriever; rs_prompt := prompt; rs_llm := llm |}.

(** [_get_rag_chain_with_history]. *)
Definition _get_rag_chain_with_history : M State RunnableWithMessageHistory :=
  let! s := get_state in
  let contextualize_system_prompt :=
    contextualize_question_prompt B ++ history_prompt B ++ question_prompt B in
  let! llm := read_llm in
  let! retriever := _get_retriever in
  let prompt := context_prompt B in
  let prompt :=
    if user_profile_truthy (user_profile (self s))
    then prompt ++ user_profile_prompt_format_messages B (_user_profile (self s))
    else prompt in
  let prompt := prompt ++ history_prompt B in
  let prompt := prompt ++ question_prompt B in
  ret {| rh_retriever := retriever; rh_contextualize := contextualize_system_prompt;
         rh_prompt := prompt; rh_llm := llm |}.

(** Invoking the chain built by [_get_rag_chain]. *)
Definition invoke_rag
  (inv : Chroma → Z → ChatPromptTemplate → ChatLiteLLM → string → outcome string)
  (c : RunnableSequence) (prompt : string) : outcome string :=
  inv (vectorstore (rs_retriever c)) (search_k (rs_retriever c))
      (rs_prompt c) (rs_llm c) prompt.

(** Invoking the chain built by [_get_rag_chain_with_history] for a
    session.  The history of the session is fetched with the lookup
    the chain was given, which [core.py] imports from [memory.py] as
    [get_session_history] and [memory.py] defines as
    [get_by_session_id]; the messages of the history are given to the
    chain with the input, and the input and the answer are appended to
    it. *)
Definition invoke_with_history
  (inv : Chroma → Z → ChatPromptTemplate → ChatPromptTemplate →
         ChatLiteLLM → list Memory.BaseMessage → string → outcome string)
  (c : RunnableWithMessageHistory) (prompt : string) (session_id : option string)
  : M State string :=
  let! l := lift_mem (Memory.get_history session_id) in
  let! s := get_state in
  let chat_history := default [] (Memory.messages_at l (mem s)) in
  let! answer := call (inv (vectorstore (rh_retriever c)) (search_k (rh_retriever c))
                           (rh_contextualize c) (rh_prompt c) (rh_llm c)
                           chat_history prompt) in
  do! lift_mem (Memory.add_messages_at l
                  [Memory.HumanMessage prompt; Memory.AIMessage answer]) in
  ret answer.

(** The body shared by [completion] and [acompletion]. *)
Definition completion_with
  (inv : Chroma → Z → ChatPromptTemplate → ChatLiteLLM → string → outcome string)
  (hinv : Chroma → Z → ChatPromptTemplate → ChatPromptTemplate →
          ChatLiteLLM → list Memory.BaseMessage → string → outcome string)
  (prompt : string) : M State string :=
  do! _check_is_fitted false in
  let! s := get_state in
  if memory_truthy (memory (self s))
  then let! rag_chain := _get_rag_chain_with_history in
       invoke_with_history hinv rag_chain prompt (_session_id s)
  else let! rag_chain := _get_rag_chain in
       call (invoke_rag inv rag_chain prompt).

Definition completion (prompt : string) : M State string :=
  completion_with (rag_invoke B) (history_invoke B) prompt.
Definition acompletion (prompt : string) : M State string :=
  completion_with (rag_ainvoke B) (history_ainvoke B) prompt.

(** [clear_memory]; [fresh_id] is the value of [str(uuid.uuid4())]. *)
Definition clear_memory (fresh_id : string) : M State unit :=
  let! s := get_state in
  do! lift_mem (MemorySpec.clear_session_history (_session_id s)) in
  set_self (with_session_id fresh_id).

(** [_internal_init]. *)
Definition _internal_init (fresh_id : string) : M State unit :=
  let! s := get_state in
  do! set_self (with_llm {| llm_model := model (self s);
                            llm_api_key := api_key (self s) |}) in
  do! set_self (with_splitter {| chunk_size := 2000; chunk_overlap := 100 |}) in
  clear_memory fresh_id.

(** The arguments of the constructor. *)
Record init_args : Type := {
  arg_model : string;
  arg_documents : option (list pyobj);
  arg_embedding : Embeddings;
  arg_user_profile : user_profile_t;
  arg_memory : option bool;
  arg_api_key : option string;
}.

(** A new object, after [__init__] has stored its arguments and before
    [_internal_init] runs: it has no [_llm], and no entry of its own for
    the attributes of the class. *)
Definition new_object (a : init_args) : CloneLLM :=
  {| model := arg_model a; api_key := arg_api_key a;
     embedding := arg_embedding a; documents := arg_documents a;
     user_profile := arg_user_profile a; memory := arg_memory a;
     own_llm := None; own_splitter := None; own_session_id := None;
     own_db := None; own_is_fitted := None |}.

(** [CloneLLM(...)]. *)
Definition CloneLLM_new (a : init_args) (fresh_id : string) : M World CloneLLM :=
  fun w =>
    let '(r, s) := _internal_init fresh_id (enter (new_object a) w) in
    match r with
    | Return _ => (Return (self s), world_of s)
    | Raise e => (Raise e, world_of s)
    end.

(** [from_persist_directory]: both assignments are to the class. *)
Definition from_persist_directory (dir : string) (a : init_args) (fresh_id : string)
  : M World CloneLLM :=
  let! d := call (Chroma_open B _CHROMA_COLLECTION_NAME (arg_embedding a) dir) in
  do! modify_state (fun w =>
        {| w_cls := {| cls_is_fitted := cls_is_fitted (w_cls w); cls_db := Some d |};
           w_mem := w_mem w; w_chroma := w_chroma w |}) in
  do! modify_state (fun w =>
        {| w_cls := {| cls_is_fitted := true; cls_db := cls_db (w_cls w) |};
           w_mem := w_mem w; w_chroma := w_chroma w |}) in
  CloneLLM_new {| arg_model := arg_model a; arg_documents := None;
                  arg_embedding := arg_embedding a;
                  arg_user_profile := arg_user_profile a;
                  arg_memory := arg_memory a; arg_api_key := arg_api_key a |}
               fresh_id.

(** The methods a caller can invoke on an instance, and one call. *)
Inductive op : Type :=
  | Fit
  | AFit
  | Update (docs : list pyobj)
  | AUpdate (docs : list pyobj)
  | Completion (prompt : string)
  | ACompletion (prompt : string)
  | ClearMemory (fresh_id : string).

Definition returned {A} (o : outcome A) : bool :=
  match o with Return _ => true | Raise _ => false end.

Definition forget {A} (o : outcome A) : outcome unit :=
  match o with Return _ => Return tt | Raise e => Raise e end.

Definition run_op (o : op) : M State unit :=
  fun s =>
    match o with
    | Fit => fit s
    | AFit => afit s
    | Update docs => update docs s
    | AUpdate docs => aupdate docs s
    | Completion prompt => let '(r, s') := completion prompt s in (forget r, s')
    | ACompletion prompt => let '(r, s') := acompletion prompt s in (forget r, s')
    | ClearMemory fresh_id => clear_memory fresh_id s
    end.

Definition is_fit (o : op) : bool :=
  match o with Fit | AFit => true | _ => false end.

(** The state after a sequence of calls. *)
Fixpoint run_ops (ops : list op) (s : State) : State :=
  match ops with
  | [] => s
  | o :: rest => run_ops rest (run_op o s).2
  end.

(** No call of the sequence is a [fit] or [afit] that returned. *)
Fixpoint no_fit_returned (ops : list op) (s : State) : bool :=
  match ops with
  | [] => true
  | o :: rest =>
      let '(r, s') := run_op o s in
      negb (is_fit o && returned r) && no_fit_returned rest s'
  end.

End Methods.

End Core.

(** ** Sequences of appends, and a reference set of collaborators *)

(** The history after a sequence of [add_messages] calls. *)
Definition append_batches (batches : list (list Memory.BaseMessage))
  (h : Memory.InMemoryHistory) : Memory.InMemoryHistory :=
  foldl (fun h batch => Memory.add_messages batch h) h batches.

(** A history that holds no message and has retention bound [m]. *)
Definition empty_history (m : Z) : Memory.InMemoryHistory :=
  {| Memory.messages := []; Memory.memory := m |}.

(** Collaborators that can be run: a splitter that keeps each document
    whole, a vector store whose collections and indexes are lists of
    chunks, [from_documents] adding to the collection of the given name
    and returning it as the index, and a model that answers with its
    input. *)
Definition list_backend : Core.Collaborators := {|
  Core.split_documents := fun _ ds => ds;
  Core.Chroma_open := fun name emb dir =>
    Return {| Core.collection_name := name; Core.embedding_function := emb;
              Core.persist_directory := Some dir; Core.chunks := [] |};
  Core.Chroma_from_documents := fun b ds emb name =>
    (Return {| Core.collection_name := name; Core.embedding_function := emb;
               Core.persist_directory := None;
               Core.chunks := default [] (b !! name) ++ ds |},
     <[name := default [] (b !! name) ++ ds]> b);
  Core.Chroma_afrom_documents := fun b ds emb name =>
    (Return {| Core.collection_name := name; Core.embedding_function := emb;
               Core.persist_directory := None;
               Core.chunks := default [] (b !! name) ++ ds |},
     <[name := default [] (b !! name) ++ ds]> b);
  Core.Chroma_add_documents := fun d ds =>
    (Return tt,
     {| Core.collection_name := Core.collection_name d;
        Core.embedding_function := Core.embedding_function d;
        Core.persist_directory := Core.persist_directory d;
        Core.chunks := Core.chunks d ++ ds |});
  Core.Chroma_aadd_documents := fun d ds =>
    (Return tt,
     {| Core.collection_name := Core.collection_name d;
        Core.embedding_function := Core.embedding_function d;
        Core.persist_directory := Core.persist_directory d;
        Core.chunks := Core.chunks d ++ ds |});
  Core.json_dumps := fun _ => "{}";
  Core.context_prompt := ["context"];
  Core.user_profile_prompt_format_messages := fun p => [p];
  Core.history_prompt := ["chat_history"];
  Core.contextualize_question_prompt := ["contextualize"];
  Core.question_prompt := ["input"];
  Core.rag_invoke := fun _ _ _ _ input => Return input;
  Core.rag_ainvoke := fun _ _ _ _ input => Return input;
  Core.history_invoke := fun _ _ _ _ _ _ input => Return input;
  Core.history_ainvoke := fun _ _ _ _ _ _ input => Return input;
|}.

(** "Not fitted", as [_check_is_fitted] reads it in every call: the
    fitted flag is off or there is no index. *)
Definition not_fitted (s : Core.State) : Prop :=
  Core.is_fitted s = false ∨ Core.db s = None.

(** "Fitted": the flag is on and an index exists. *)
Definition fitted (s : Core.State) : Prop :=
  Core.is_fitted s = true ∧ is_Some (Core.db s).

(** "The position of the first offending document": the element at [i]
    is not a [Document] and every element before it is one. *)
Definition first_invalid (docs : list Core.pyobj) (i : nat) : Prop :=
  (∃ o, docs !! i = Some o ∧ Core.isinstance_Document o = false) ∧
  ∀ j, j < i → ∃ d, docs !! j = Some (Core.PyDocument d).

(** A world in which nothing has run yet, and sample arguments. *)
Definition fresh_world : Core.World :=
  {| Core.w_cls := Core.class_defaults; Core.w_mem := Memory.initial;
     Core.w_chroma := ∅ |}.

Definition doc1 : Core.Document :=
  {| Core.page_content := "I am Ada."; Core.metadata := [] |}.
Definition doc2 : Core.Document :=
  {| Core.page_content := "I live in London."; Core.metadata := [] |}.

(** A batch whose second element is not a [Document]. *)
Definition bad_batch : list Core.pyobj :=
  [Core.PyDocument doc1; Core.PyOther "42"].

Definition sample_args (docs : option (list Core.pyobj)) (memory : option bool)
  : Core.init_args :=
  {| Core.arg_model := "gpt-4o"; Core.arg_documents := docs;
     Core.arg_embedding := {| Core.embedding_name := "text-embedding-3-small" |};
     Core.arg_user_profile := Core.UP_str "Ada"; Core.arg_memory := memory;
     Core.arg_api_key := None |}.

(** The state in which the methods of a newly constructed instance
    run. *)
Definition constructed (a : Core.init_args) (fresh_id : string) (w : Core.World)
  : Core.State :=
  (Core._internal_init fresh_id (Core.enter (Core.new_object a) w)).2.

(** The same after a successful [fit] with the reference
    collaborators. *)
Definition constructed_and_fitted (a : Core.init_args) (fresh_id : string)
  (w : Core.World) : Core.State :=
  (Core.fit list_backend (constructed a fresh_id w)).2.

(** An instance constructed on [doc1] and not fitted; the same fitted,
    with [memory] off and on. *)
Definition persona_new : Core.State :=
  constructed (sample_args (Some [Core.PyDocument doc1]) None) "id-0" fresh_world.
Definition persona_bad : Core.State :=
  constructed (sample_args (Some bad_batch) None) "id-0" fresh_world.
Definition persona_fitted : Core.State :=
  constructed_and_fitted (sample_args (Some [Core.PyDocument doc1]) None)
    "id-0" fresh_world.
Definition persona_with_memory : Core.State :=
  constructed_and_fitted (sample_args (Some [Core.PyDocument doc1]) (Some true))
    "id-0" fresh_world.

(** A use of the store that is not a clear: a lookup of a session id,
    or an append through a reference obtained earlier. *)
Inductive store_use : Type :=
  | Get (session_id : string)
  | Append (l : Memory.loc) (msgs : list Memory.BaseMessage).

Definition run_store_use (u : store_use) (st : Memory.state) : Memory.state :=
  match u with
  | Get session_id => (Memory.get_by_session_id session_id st).2
  | Append l msgs => (Memory.add_messages_at l msgs st).2
  end.

Definition run_store_uses (us : list store_use) (st : Memory.state) : Memory.state :=
  foldl (fun st u => run_store_use u st) st us.

(** Messages used in the examples. *)
Definition msg_a : Memory.BaseMessage := Memory.HumanMessage "a".
Definition msg_b : Memory.BaseMessage := Memory.AIMessage "b".
Definition msg_c : Memory.BaseMessage := Memory.HumanMessage "c".

(** Collaborators whose chain tells what it was invoked on: its answer
    lists the chunks of the index, [k], the prompt template, the model
    and the input. *)
Definition telling_invoke (d : Core.Chroma) (k : Z) (p : Core.ChatPromptTemplate)
  (llm : Core.ChatLiteLLM) (input : string) : outcome string :=
  Return (String.concat "; " (map Core.page_content (Core.chunks d)) +:+ " | k="
          +:+ Core.str_of_nat (Z.to_nat k) +:+ " | " +:+ String.concat "; " p
          +:+ " | " +:+ Core.llm_model llm +:+ " | " +:+ input).

Definition telling_backend : Core.Collaborators := {|
  Core.split_documents := Core.split_documents list_backend;
  Core.Chroma_open := Core.Chroma_open list_backend;
  Core.Chroma_from_documents := Core.Chroma_from_documents list_backend;
  Core.Chroma_afrom_documents := Core.Chroma_afrom_documents list_backend;
  Core.Chroma_add_documents := Core.Chroma_add_documents list_backend;
  Core.Chroma_aadd_documents := Core.Chroma_aadd_documents list_backend;
  Core.json_dumps := Core.json_dumps list_backend;
  Core.context_prompt := Core.context_prompt list_backend;
  Core.user_profile_prompt_format_messages :=
    Core.user_profile_prompt_format_messages list_backend;
  Core.history_prompt := Core.history_prompt list_backend;
  Core.contextualize_question_prompt := Core.contextualize_question_prompt list_backend;
  Core.question_prompt := Core.question_prompt list_backend;
  Core.rag_invoke := telling_invoke;
  Core.rag_ainvoke := telling_invoke;
  Core.history_invoke := Core.history_invoke list_backend;
  Core.history_ainvoke := Core.history_ainvoke list_backend;
|}.

(** What [_internal_init] leaves on an instance: a model handle, the
    splitter with chunks of 2000 and overlap 100, and a session id. *)
Definition initialized (s : Core.State) : Prop :=
  is_Some (Core.own_llm (Core.self s)) ∧
  Core._splitter s = Some {| Core.chunk_size := 2000; Core.chunk_overlap := 100 |} ∧
  is_Some (Core._session_id s).

(** Every element of a list is a [Document]. *)
Definition all_documents (docs : list Core.pyobj) : Prop :=
  Forall (λ o, Core.isinstance_Document o = true) docs.

(** The messages the user profile adds to a prompt: none when the
    profile is falsy. *)
Definition profile_part (B : Core.Collaborators) (i : Core.CloneLLM)
  : Core.ChatPromptTemplate :=
  if Core.user_profile_truthy (Core.user_profile i)
  then Core.user_profile_prompt_format_messages B (Core._user_profile B i)
  else [].

(** Two states that differ at most in the index: the same session
    store, the same fitted flags, the same fields, and an index held
    in the same places. *)
Definition same_but_index (s s' : Core.State) : Prop :=
  Core.mem s' = Core.mem s ∧
  Core.cls_is_fitted (Core.cls s') = Core.cls_is_fitted (Core.cls s) ∧
  Core.own_is_fitted (Core.self s') = Core.own_is_fitted (Core.self s) ∧
  Core.documents (Core.self s') = Core.documents (Core.self s) ∧
  Core.own_session_id (Core.self s') = Core.own_session_id (Core.self s) ∧
  Core.own_splitter (Core.self s') = Core.own_splitter (Core.self s) ∧
  Core.own_llm (Core.self s') = Core.own_llm (Core.self s) ∧
  Core.model (Core.self s') = Core.model (Core.self s) ∧
  Core.api_key (Core.self s') = Core.api_key (Core.self s) ∧
  Core.embedding (Core.self s') = Core.embedding (Core.self s) ∧
  Core.user_profile (Core.self s') = Core.user_profile (Core.self s) ∧
  Core.memory (Core.self s') = Core.memory (Core.self s) ∧
  Core.is_None (Core.own_db (Core.self s')) = Core.is_None (Core.own_db (Core.self s)) ∧
  Core.is_None (Core.cls_db (Core.cls s')) = Core.is_None (Core.cls_db (Core.cls s)).

(** The same class and store, seen from another instance. *)
Definition seen_from (j : Core.CloneLLM) (s : Core.State) : Core.State :=
  {| Core.cls := Core.cls s; Core.self := j; Core.mem := Core.mem s;
     Core.chroma := Core.chroma s |}.

(** The result of [from_persist_directory] with the reference
    collaborators, and an instance constructed after it. *)
Definition persona_loaded : Core.State :=
  match Core.from_persist_directory list_backend "./chroma"
          (sample_args None None) "id-0" fresh_world with
  | (Return i, w) => Core.enter i w
  | (Raise _, w) => Core.enter (Core.new_object (sample_args None None)) w
  end.
Definition persona_after_load : Core.State :=
  constructed (sample_args (Some [Core.PyDocument doc2]) None) "id-1"
    (Core.world_of persona_loaded).

(** A history that holds more than its bound allows, as one whose
    [messages] were assigned directly, and one within its bound. *)
Definition overlong_history : Memory.InMemoryHistory :=
  {| Memory.messages := [msg_a; msg_b; msg_c]; Memory.memory := 2 |}.
Definition short_history : Memory.InMemoryHistory :=
  {| Memory.messages := [msg_a]; Memory.memory := 2 |}.

(** * Properties *)

Close Scope string_scope.

(** ** Bounded retention ([add_messages]) *)

Lemma foldl_append_one {A} (init l : list A) :
  foldl (fun acc x => acc ++ [x]) init l = init ++ l.
Proof.
  revert init. induction l as [|x l IH]; intros init; simpl.
  - by rewrite app_nil_r.
  - rewrite IH. by rewrite <- app_assoc.
Qed.

(** The slice [l[-m:]] with [m > 0] is the last [m] elements of [l]. *)
Lemma py_slice_from_neg {A} (m : Z) (l : list A) :
  (0 < m)%Z → Memory.py_slice_from (- m) l = last_n (Z.to_nat m) l.
Proof.
  intros Hm. unfold Memory.py_slice_from, last_n.
  destruct (Z.ltb_spec (- m) 0) as [_|?]; [|lia].
  f_equal. lia.
Qed.

Lemma length_last_n {A} (k : nat) (l : list A) :
  length (last_n k l) = length l `min` k.
Proof. unfold last_n. rewrite length_drop. lia. Qed.

(** Keeping the last [k] before appending loses nothing that the last
    [k] after appending would keep. *)
Lemma last_n_app_last_n {A} (k : nat) (xs ys : list A) :
  last_n k (last_n k xs ++ ys) = last_n k (xs ++ ys).
Proof.
  unfold last_n. rewrite !length_app, length_drop.
  destruct (decide (length xs ≤ k)) as [Hle|Hgt].
  - replace (length xs - k) with 0 by lia. simpl. f_equal. lia.
  - assert (xs ++ ys = take (length xs - k) xs ++ (drop (length xs - k) xs ++ ys)) as ->
      by (by rewrite app_assoc, take_drop).
    replace (length xs + length ys - k) with ((length xs - k) + length ys) by lia.
    rewrite drop_app_add' by (rewrite length_take; lia).
    f_equal. lia.
Qed.

Lemma add_messages_memory msgs h :
  Memory.memory (Memory.add_messages msgs h) = Memory.memory h.
Proof. unfold Memory.add_messages. by destruct (0 <? Memory.memory h)%Z. Qed.

Lemma add_messages_positive msgs h :
  (0 < Memory.memory h)%Z →
  Memory.messages (Memory.add_messages msgs h)
  = last_n (Z.to_nat (Memory.memory h)) (Memory.messages h ++ msgs).
Proof.
  intros Hm. unfold Memory.add_messages.
  destruct (Z.ltb_spec 0 (Memory.memory h)) as [_|?]; [|lia].
  simpl. by rewrite foldl_append_one, py_slice_from_neg.
Qed.

Lemma add_messages_unbounded msgs h :
  (Memory.memory h ≤ 0)%Z →
  Memory.messages (Memory.add_messages msgs h) = Memory.messages h ++ msgs.
Proof.
  intros Hm. unfold Memory.add_messages.
  destruct (Z.ltb_spec 0 (Memory.memory h)) as [?|_]; [lia|].
  simpl. by rewrite foldl_append_one.
Qed.

Lemma append_batches_memory batches h :
  Memory.memory (append_batches batches h) = Memory.memory h.
Proof.
  revert h. induction batches as [|b bs IH]; intros h; simpl; [done|].
  unfold append_batches in *. simpl. by rewrite IH, add_messages_memory.
Qed.

(** With a positive bound, a history that holds the last [m] of what
    was appended so far still does after more batches. *)
Lemma append_batches_positive batches h all :
  (0 < Memory.memory h)%Z →
  Memory.messages h = last_n (Z.to_nat (Memory.memory h)) all →
  Memory.messages (append_batches batches h)
  = last_n (Z.to_nat (Memory.memory h)) (all ++ concat batches).
Proof.
  revert h all. induction batches as [|b bs IH]; intros h all Hm Hh; simpl.
  - by rewrite app_nil_r.
  - unfold append_batches in *. simpl.
    rewrite (IH (Memory.add_messages b h) (all ++ b)).
    + by rewrite add_messages_memory, app_assoc.
    + by rewrite add_messages_memory.
    + rewrite add_messages_memory, add_messages_positive by done.
      rewrite Hh. apply last_n_app_last_n.
Qed.

Lemma append_batches_unbounded batches h :
  (Memory.memory h ≤ 0)%Z →
  Memory.messages (append_batches batches h) = Memory.messages h ++ concat batches.
Proof.
  revert h. induction batches as [|b bs IH]; intros h Hm; simpl.
  - by rewrite app_nil_r.
  - unfold append_batches in *. simpl.
    rewrite IH by (by rewrite add_messages_memory).
    by rewrite add_messages_unbounded, app_assoc.
Qed.

(** C1.  Take a history that holds no message and has retention bound
    [m], and any sequence of batches appended with [add_messages].  After each
    append (after the first [k] batches, for every [k]): if [m > 0] the
    stored length is the minimum of the number of messages appended so
    far and [m], and the content is the last [m] appended messages in
    their order; if [m <= 0] nothing is dropped and the stored length is
    the number of messages appended. *)
Theorem C1_bounded_retention (m : Z) (batches : list (list Memory.BaseMessage)) (k : nat) :
  let appended := concat (take k batches) in
  let h := append_batches (take k batches) (empty_history m) in
  ((0 < m)%Z →
     length (Memory.messages h) = length appended `min` Z.to_nat m ∧
     Memory.messages h = last_n (Z.to_nat m) appended) ∧
  ((m ≤ 0)%Z →
     Memory.messages h = appended ∧
     length (Memory.messages h) = length appended).
Proof.
  intros appended h. split; intros Hm.
  - assert (Memory.messages h = last_n (Z.to_nat m) appended) as Hh.
    { unfold h. rewrite (append_batches_positive _ _ []); [done|done|].
      simpl. unfold last_n. by rewrite drop_nil. }
    split; [|done]. rewrite Hh. apply length_last_n.
  - assert (Memory.messages h = appended) as Hh.
    { unfold h. by rewrite append_batches_unbounded. }
    split; [done|]. by rewrite Hh.
Qed.

Lemma C1_bounded_retention_witness :
  Memory.messages (append_batches [[msg_a; msg_b]; [msg_c]] (empty_history 2))
    = [msg_b; msg_c] ∧
  Memory.messages (append_batches [[msg_a; msg_b]; [msg_c]] (empty_history 0))
    = [msg_a; msg_b; msg_c].
Proof.
  split.
  - exact (proj2 (proj1
      (C1_bounded_retention 2 [[msg_a; msg_b]; [msg_c]] 2) ltac:(lia))).
  - exact (proj1 (proj2
      (C1_bounded_retention 0 [[msg_a; msg_b]; [msg_c]] 2) ltac:(lia))).
Defined.

(** ** The session store *)

(** C2.  For every session id string, [clear_session_history] returns
    without raising, whether or not the store knows the id; afterwards
    the id has no entry, and every other session id stands for the
    history it stood for before. *)
Theorem C2_clear_session_history_total (session_id : string) (st : Memory.state) :
  ∃ st',
    MemorySpec.clear_session_history (Some session_id) st = (Return tt, st') ∧
    Memory._store st' !! Some session_id = None ∧
    Memory.heap st' = Memory.heap st ∧
    ∀ other, other ≠ Some session_id →
      Memory._store st' !! other = Memory._store st !! other ∧
      Memory.history_of other st' = Memory.history_of other st.
Proof.
  eexists. split; [reflexivity|]. simpl. split; [apply lookup_delete_eq|].
  split; [done|]. intros other Hne.
  unfold Memory.history_of. simpl.
  by rewrite !lookup_delete_ne by congruence.
Qed.

Lemma get_by_session_id_present (session_id : string) (st : Memory.state) (l : Memory.loc) :
  Memory._store st !! Some session_id = Some l →
  Memory.get_by_session_id session_id st = (Return l, st).
Proof.
  intros Hl. unfold Memory.get_by_session_id, bind, Memory.store_contains,
    Memory.store_getitem, ret.
  rewrite Hl. rewrite bool_decide_eq_true_2 by eauto. simpl. by rewrite Hl.
Qed.

Lemma get_by_session_id_absent (session_id : string) (st : Memory.state) :
  Memory._store st !! Some session_id = None →
  Memory.get_by_session_id session_id st = (Raise Memory.missing_memory_argument, st).
Proof.
  intros Hl. unfold Memory.get_by_session_id, bind, Memory.store_contains.
  rewrite Hl. by rewrite bool_decide_eq_false_2 by (intros [? ?]; done).
Qed.

(** C3, as the code behaves.  The specification asks that
    [get_by_session_id] never raise and that an absent id get an empty
    history carrying a retention bound.  In the code, for a session id
    with no entry, the constructor is called without its required
    [memory] argument: the call raises [TypeError], no history is
    created and the store is left as it was. *)
Theorem C3_get_unknown_id_raises (session_id : string) (st : Memory.state) :
  Memory._store st !! Some session_id = None →
  Memory.get_by_session_id session_id st = (Raise Memory.missing_memory_argument, st).
Proof. apply get_by_session_id_absent. Qed.

Lemma C3_get_unknown_id_raises_witness :
  Memory.get_by_session_id "s1" Memory.initial
  = (Raise Memory.missing_memory_argument, Memory.initial).
Proof. apply (C3_get_unknown_id_raises "s1" Memory.initial). reflexivity. Defined.

(** Lookups never change the store, whether they return or raise. *)
Lemma get_by_session_id_state (session_id : string) (st : Memory.state) :
  (Memory.get_by_session_id session_id st).2 = st.
Proof.
  destruct (Memory._store st !! Some session_id) as [l|] eqn:Hl.
  - by rewrite (get_by_session_id_present _ _ l).
  - by rewrite get_by_session_id_absent.
Qed.

Lemma run_store_use_store (u : store_use) (st : Memory.state) :
  Memory._store (run_store_use u st) = Memory._store st.
Proof.
  destruct u as [sid|l msgs]; simpl; [|done].
  by rewrite get_by_session_id_state.
Qed.

Lemma run_store_use_heap_length (u : store_use) (st : Memory.state) :
  length (Memory.heap (run_store_use u st)) = length (Memory.heap st).
Proof.
  destruct u as [sid|l msgs]; simpl.
  - by rewrite get_by_session_id_state.
  - apply length_alter.
Qed.

Lemma run_store_uses_store (us : list store_use) (st : Memory.state) :
  Memory._store (run_store_uses us st) = Memory._store st.
Proof.
  revert st. induction us as [|u us IH]; intros st; [done|].
  unfold run_store_uses in *. simpl. by rewrite IH, run_store_use_store.
Qed.

Lemma run_store_uses_heap_length (us : list store_use) (st : Memory.state) :
  length (Memory.heap (run_store_uses us st)) = length (Memory.heap st).
Proof.
  revert st. induction us as [|u us IH]; intros st; [done|].
  unfold run_store_uses in *. simpl. by rewrite IH, run_store_use_heap_length.
Qed.

(** An append through a reference is read back through the same
    reference. *)
Lemma add_messages_at_read (l : Memory.loc) msgs (st : Memory.state) h :
  Memory.heap st !! l = Some h →
  Memory.messages_at l (Memory.add_messages_at l msgs st).2
  = Some (Memory.messages (Memory.add_messages msgs h)).
Proof.
  intros Hh.
  unfold Memory.messages_at, Memory.add_messages_at, Memory.update_at, modify_state.
  cbn [snd Memory.heap]. by rewrite list_lookup_alter_eq, Hh.
Qed.

(** C10, as the code behaves.  The specification asks that lookups of
    a live session id keep returning the same history, so that appends
    through one are seen through the other.  In the code no id is ever
    live: a lookup is the only way to an entry, and it raises before it
    writes one.  In every state reached from the empty store by lookups
    and appends the store is empty, a lookup of any id raises
    [TypeError] and returns no history, and so does the next lookup of
    the same id. *)
Theorem C10_no_id_is_ever_live (session_id : string) (uses : list store_use) :
  let st := run_store_uses uses Memory.initial in
  Memory._store st = ∅ ∧
  Memory.get_by_session_id session_id st
    = (Raise Memory.missing_memory_argument, st) ∧
  Memory.get_by_session_id session_id (Memory.get_by_session_id session_id st).2
    = (Raise Memory.missing_memory_argument, st).
Proof.
  intros st.
  assert (Memory._store st = ∅) as Hst by (unfold st; by rewrite run_store_uses_store).
  assert (Memory.get_by_session_id session_id st
          = (Raise Memory.missing_memory_argument, st)) as Hget.
  { apply get_by_session_id_absent. by rewrite Hst. }
  split; [done|]. split; [done|]. by rewrite Hget.
Qed.

(** ** The orchestrator *)

Lemma string_length_app (s t : string) :
  String.length (s +:+ t) = String.length s + String.length t.
Proof. induction s as [|c s IH]; simpl; [done|]. by rewrite IH. Qed.

Lemma string_app_inv_tail (s1 s2 t : string) :
  s1 +:+ t = s2 +:+ t → s1 = s2.
Proof.
  revert s2. induction s1 as [|c s1 IH]; intros [|c' s2] H.
  - done.
  - apply (f_equal String.length) in H.
    rewrite (string_length_app "" t), (string_length_app (String c' s2) t) in H.
    cbn [String.length] in H. lia.
  - apply (f_equal String.length) in H.
    rewrite (string_length_app "" t), (string_length_app (String c s1) t) in H.
    cbn [String.length] in H. lia.
  - cbn [String.append] in H. injection H as -> H. f_equal. by apply IH.
Qed.

Lemma str_of_nat_inj (i j : nat) : Core.str_of_nat i = Core.str_of_nat j → i = j.
Proof.
  unfold Core.str_of_nat. intros H.
  apply DecimalNat.Unsigned.to_uint_inj.
  apply (f_equal NilEmpty.uint_of_string) in H.
  rewrite !NilEmpty.usu in H. congruence.
Qed.

(** The message of the validation error determines the position. *)
Lemma invalid_document_message_inj (i j : nat) :
  Core.invalid_document_message i = Core.invalid_document_message j → i = j.
Proof.
  unfold Core.invalid_document_message. intros H.
  apply String.app_inj in H. apply string_app_inv_tail in H.
  by apply str_of_nat_inj.
Qed.

Section Orchestrator.

Variable B : Core.Collaborators.

Lemma check_is_fitted_not_fitted (from_update : bool) (s : Core.State) :
  not_fitted s →
  Core._check_is_fitted from_update s
  = (Raise (AttributeError Core.not_fitted_message), s).
Proof.
  intros [Hf|Hd]; unfold Core._check_is_fitted, bind, get_state.
  - by rewrite Hf.
  - rewrite Hd. simpl. by rewrite orb_true_r.
Qed.

Lemma check_is_fitted_fitted (from_update : bool) (s : Core.State) :
  fitted s →
  (from_update = true → is_Some (Core._splitter s)) →
  Core._check_is_fitted from_update s = (Return tt, s).
Proof.
  intros [Hf [d Hd]] Hsp. unfold Core._check_is_fitted, bind, get_state.
  rewrite Hf, Hd. simpl. destruct from_update; [|done].
  destruct Hsp as [sp ->]; done.
Qed.

(** The loop stops at the first element that is not a [Document] and
    reports its position. *)
Lemma check_documents_from_first_invalid (docs : list Core.pyobj) (k i : nat) :
  first_invalid docs i →
  Core.check_documents_from k docs
  = Raise (ValueError (Core.invalid_document_message (k + i))).
Proof.
  revert k i. induction docs as [|doc rest IH]; intros k i [(o & Ho & Hno) Hbefore].
  - done.
  - destruct i as [|i]; simpl in *.
    + injection Ho as ->. rewrite Hno. simpl. by rewrite Nat.add_0_r.
    + destruct (Hbefore 0) as [d Hd]; [lia|]. injection Hd as ->. simpl.
      rewrite (IH (S k) i).
      * do 3 f_equal. lia.
      * split; [by exists o|]. intros j Hj. apply (Hbefore (S j)). lia.
Qed.

Lemma check_documents_given_invalid (docs : list Core.pyobj) (i : nat) (s : Core.State) :
  first_invalid docs i →
  Core._check_documents (Some docs) s
  = (Raise (ValueError (Core.invalid_document_message i)), s).
Proof.
  intros Hi. unfold Core._check_documents, bind, get_state, call.
  destruct docs as [|doc rest].
  { destruct Hi as [(o & Ho & _) _]. done. }
  cbn [Core.py_or]. by rewrite (check_documents_from_first_invalid _ 0 i).
Qed.

Lemma check_documents_own_invalid (docs : list Core.pyobj) (i : nat) (s : Core.State) :
  Core.documents (Core.self s) = Some docs →
  first_invalid docs i →
  Core._check_documents None s
  = (Raise (ValueError (Core.invalid_document_message i)), s).
Proof.
  intros Hd Hi. unfold Core._check_documents, bind, get_state, call.
  cbn [Core.py_or]. rewrite Hd.
  by rewrite (check_documents_from_first_invalid _ 0 i).
Qed.

Lemma not_fitted_calls_raise (s : Core.State) (prompt : string) (docs : list Core.pyobj) :
  not_fitted s →
  Core.completion B prompt s
    = (Raise (AttributeError Core.not_fitted_message), s) ∧
  Core.acompletion B prompt s
    = (Raise (AttributeError Core.not_fitted_message), s) ∧
  Core.update B docs s = (Raise (AttributeError Core.not_fitted_message), s) ∧
  Core.aupdate B docs s = (Raise (AttributeError Core.not_fitted_message), s).
Proof.
  intros Hs.
  unfold Core.completion, Core.acompletion, Core.completion_with,
    Core.update, Core.aupdate, Core.update_with, bind.
  by rewrite !check_is_fitted_not_fitted.
Qed.

(** C6.  Let a batch hold an element that is not a [Document], the
    first such at position [i].  [fit] and [afit] on an instance whose
    documents are that batch, and [update] and [aupdate] of that batch
    on a fitted instance, raise the [ValueError] whose message names
    [i]; the messages of two positions differ; and the state in which
    they raise is the state in which they were called, so the index is
    as it was. *)
Theorem C6_invalid_document_aborts (s : Core.State) (docs : list Core.pyobj) (i : nat) :
  first_invalid docs i →
  (∀ j, Core.invalid_document_message j = Core.invalid_document_message i → j = i) ∧
  (Core.documents (Core.self s) = Some docs →
     Core.fit B s = (Raise (ValueError (Core.invalid_document_message i)), s) ∧
     Core.afit B s = (Raise (ValueError (Core.invalid_document_message i)), s)) ∧
  (fitted s → is_Some (Core._splitter s) →
     Core.update B docs s = (Raise (ValueError (Core.invalid_document_message i)), s) ∧
     Core.aupdate B docs s = (Raise (ValueError (Core.invalid_document_message i)), s)).
Proof.
  intros Hi. split; [intros j; apply invalid_document_message_inj|]. split.
  - intros Hd. unfold Core.fit, Core.afit, Core.fit_with, bind.
    by rewrite (check_documents_own_invalid docs i).
  - intros Hf Hsp. unfold Core.update, Core.aupdate, Core.update_with, bind.
    rewrite check_is_fitted_fitted by done.
    by rewrite (check_documents_given_invalid docs i).
Qed.

Lemma check_documents_from_valid (docs : list Core.pyobj) (k : nat) (ds : list Core.Document) :
  Core.as_documents docs = Some ds →
  Core.check_documents_from k docs = Return tt.
Proof.
  revert k ds. induction docs as [|[d|r] rest IH]; intros k ds H; simpl in *.
  - done.
  - destruct (Core.as_documents rest) as [ds'|] eqn:Hrest; [|done].
    by apply (IH _ ds').
  - done.
Qed.

Lemma check_documents_given_valid (docs : list Core.pyobj) (ds : list Core.Document)
    (s : Core.State) :
  docs ≠ [] →
  Core.as_documents docs = Some ds →
  Core._check_documents (Some docs) s = (Return tt, s).
Proof.
  intros Hne Hds. unfold Core._check_documents, bind, get_state, call.
  destruct docs as [|doc rest]; [done|]. cbn [Core.py_or].
  by rewrite (check_documents_from_valid _ 0 ds).
Qed.

Lemma split_self_documents_ok (s : Core.State) sp corpus ds :
  Core._splitter s = Some sp →
  Core.documents (Core.self s) = Some corpus →
  Core.as_documents corpus = Some ds →
  Core.split_self_documents B s = (Return (Core.split_documents B sp ds), s).
Proof.
  intros Hsp Hc Hds. unfold Core.split_self_documents, bind, get_state.
  by rewrite Hsp, Hc, Hds.
Qed.

(** C4, as the code behaves.  The specification asks that
    [update(documents)] split the documents it is given and add their
    chunks to the existing index.  In the code, on a fitted instance and
    for a non-empty batch of valid documents, the batch is validated and
    then dropped: what is split and added to the existing index is the
    corpus the instance was constructed with, [self.documents]. *)
Theorem C4_update_adds_own_corpus (s : Core.State) (docs : list Core.pyobj)
    (given : list Core.Document) (sp : Core.TextSplitter)
    (corpus : list Core.pyobj) (ds : list Core.Document) :
  fitted s →
  Core._splitter s = Some sp →
  docs ≠ [] →
  Core.as_documents docs = Some given →
  Core.documents (Core.self s) = Some corpus →
  Core.as_documents corpus = Some ds →
  Core.update B docs s
    = Core.db_add (Core.Chroma_add_documents B) (Core.split_documents B sp ds) s ∧
  Core.aupdate B docs s
    = Core.db_add (Core.Chroma_aadd_documents B) (Core.split_documents B sp ds) s.
Proof.
  intros Hf Hsp Hne Hgiven Hc Hds.
  unfold Core.update, Core.aupdate, Core.update_with, bind.
  rewrite check_is_fitted_fitted by (rewrite ?Hsp; eauto).
  rewrite (check_documents_given_valid docs given) by done.
  by rewrite (split_self_documents_ok s sp corpus ds).
Qed.

Lemma get_retriever_ok (s : Core.State) d :
  Core.db s = Some d →
  Core._get_retriever s
  = (Return {| Core.vectorstore := d; Core.search_k := 1 |}, s).
Proof. intros Hd. unfold Core._get_retriever, bind, get_state. by rewrite Hd. Qed.

Lemma read_llm_ok (s : Core.State) llm :
  Core.own_llm (Core.self s) = Some llm → Core.read_llm s = (Return llm, s).
Proof. intros Hl. unfold Core.read_llm, bind, get_state. by rewrite Hl. Qed.

Lemma get_rag_chain_ok (s : Core.State) d llm :
  Core.db s = Some d →
  Core.own_llm (Core.self s) = Some llm →
  ∃ c, Core._get_rag_chain B s = (Return c, s) ∧
       Core.rs_retriever c = {| Core.vectorstore := d; Core.search_k := 1 |} ∧
       Core.rs_llm c = llm.
Proof.
  intros Hd Hl. unfold Core._get_rag_chain, bind at 1, get_state.
  unfold bind. rewrite (get_retriever_ok s d), (read_llm_ok s llm) by done.
  eexists. split; [reflexivity|]. done.
Qed.

Lemma get_rag_chain_with_history_ok (s : Core.State) d llm :
  Core.db s = Some d →
  Core.own_llm (Core.self s) = Some llm →
  ∃ c, Core._get_rag_chain_with_history B s = (Return c, s) ∧
       Core.rh_retriever c = {| Core.vectorstore := d; Core.search_k := 1 |} ∧
       Core.rh_llm c = llm.
Proof.
  intros Hd Hl. unfold Core._get_rag_chain_with_history, bind at 1, get_state.
  unfold bind. rewrite (read_llm_ok s llm), (get_retriever_ok s d) by done.
  eexists. split; [reflexivity|]. done.
Qed.

Lemma stateless_completion_run (s : Core.State) (prompt : string)
    (d : Core.Chroma) (llm : Core.ChatLiteLLM) :
  Core.is_fitted s = true →
  Core.db s = Some d →
  Core.own_llm (Core.self s) = Some llm →
  Core.memory_truthy (Core.memory (Core.self s)) = false →
  ∃ c, Core._get_rag_chain B s = (Return c, s) ∧
    Core.rs_retriever c = {| Core.vectorstore := d; Core.search_k := 1 |} ∧
    ∀ inv hinv,
      Core.completion_with B inv hinv prompt s
      = (Core.invoke_rag inv c prompt, s).
Proof.
  intros Hf Hd Hl Hm.
  destruct (get_rag_chain_ok s d llm Hd Hl) as (c & Hc & Hr & _).
  exists c. split; [done|]. split; [done|].
  intros inv hinv. unfold Core.completion_with, bind.
  rewrite check_is_fitted_fitted; [|split; eauto|done].
  unfold get_state. by rewrite Hm, Hc.
Qed.

(** The stateless path, spelled out: the chain is invoked on the index,
    [k = 1], the prompt assembled from the context, the profile and the
    question, the model and the input. *)
Lemma stateless_completion_explicit (s : Core.State) (prompt : string)
    (d : Core.Chroma) (llm : Core.ChatLiteLLM) inv hinv :
  Core.is_fitted s = true →
  Core.db s = Some d →
  Core.own_llm (Core.self s) = Some llm →
  Core.memory_truthy (Core.memory (Core.self s)) = false →
  Core.completion_with B inv hinv prompt s
  = (inv d 1%Z (Core.context_prompt B ++ profile_part B (Core.self s)
              ++ Core.question_prompt B) llm prompt, s).
Proof.
  intros Hf Hd Hl Hm. unfold Core.completion_with, bind.
  rewrite check_is_fitted_fitted; [|split; eauto|done].
  unfold get_state. rewrite Hm.
  unfold Core._get_rag_chain, bind, get_state.
  rewrite (get_retriever_ok s d), (read_llm_ok s llm) by done.
  unfold ret, call, Core.invoke_rag, profile_part. cbn.
  destruct (Core.user_profile_truthy (Core.user_profile (Core.self s)));
    by rewrite <- ?app_assoc.
Qed.

(** C8.  On a fitted instance whose [memory] is off, [completion]
    returns the outcome of one invocation of the retrieval chain: on the
    index of the instance with [k = 1], the prompt made of the context
    template, the profile messages and the question template, the model
    of the instance, and the prompt it was given.  The state after the
    call is the state before it, so the session store has the entries it
    had, unchanged, and no other; and the call is the same whatever the
    session store holds, so no history is read.  [acompletion] does the
    same with the asynchronous invocation. *)
Theorem C8_stateless_completion (s : Core.State) (prompt : string)
    (d : Core.Chroma) (llm : Core.ChatLiteLLM) :
  Core.is_fitted s = true →
  Core.db s = Some d →
  Core.own_llm (Core.self s) = Some llm →
  Core.memory_truthy (Core.memory (Core.self s)) = false →
  let p := Core.context_prompt B ++ profile_part B (Core.self s)
           ++ Core.question_prompt B in
  Core.completion B prompt s = (Core.rag_invoke B d 1 p llm prompt, s) ∧
  Core.acompletion B prompt s = (Core.rag_ainvoke B d 1 p llm prompt, s) ∧
  Core.mem (Core.completion B prompt s).2 = Core.mem s ∧
  Core.mem (Core.acompletion B prompt s).2 = Core.mem s ∧
  ∀ m',
    let s' := {| Core.cls := Core.cls s; Core.self := Core.self s;
                 Core.mem := m'; Core.chroma := Core.chroma s |} in
    Core.completion B prompt s' = (Core.rag_invoke B d 1 p llm prompt, s') ∧
    Core.acompletion B prompt s' = (Core.rag_ainvoke B d 1 p llm prompt, s').
Proof.
  intros Hf Hd Hl Hm p.
  unfold Core.completion, Core.acompletion.
  rewrite !(stateless_completion_explicit s prompt d llm) by done.
  split; [done|]. split; [done|]. split; [done|]. split; [done|].
  intros m'.
  set (s' := {| Core.cls := Core.cls s; Core.self := Core.self s;
                Core.mem := m'; Core.chroma := Core.chroma s |}).
  by rewrite !(stateless_completion_explicit s' prompt d llm).
Qed.

(** What a call leaves in place. *)
Lemma set_self_session_id_db (s : Core.State) (fresh_id : string) :
  Core.db (Core.set_self (Core.with_session_id fresh_id) s).2 = Core.db s.
Proof. done. Qed.

Lemma clear_memory_run (s : Core.State) (fresh_id : string) :
  Core.clear_memory fresh_id s
  = (Return tt,
     {| Core.cls := Core.cls s;
        Core.self := Core.with_session_id fresh_id (Core.self s);
        Core.mem := {| Memory._store :=
                         delete (Core._session_id s) (Memory._store (Core.mem s));
                       Memory.heap := Memory.heap (Core.mem s) |};
        Core.chroma := Core.chroma s |}).
Proof. done. Qed.

(** A call that raises before the index is assigned leaves the class,
    the instance and the session store alone: [fit] and [afit] assign
    [db] only after every step that can raise.  What the vector store
    did to its collections before it raised is its own. *)
Lemma fit_with_raise_db from_documents (s : Core.State) e :
  (Core.fit_with B from_documents s).1 = Raise e →
  Core.cls (Core.fit_with B from_documents s).2 = Core.cls s ∧
  Core.self (Core.fit_with B from_documents s).2 = Core.self s ∧
  Core.mem (Core.fit_with B from_documents s).2 = Core.mem s.
Proof.
  unfold Core.fit_with, bind.
  destruct (Core._check_documents None s) as [[[]|e1] s1] eqn:H1.
  2:{ intros _. unfold Core._check_documents, bind, get_state in H1.
      destruct (Core.py_or _ _); cbn in H1; by injection H1 as _ <-. }
  assert (s1 = s) as ->.
  { unfold Core._check_documents, bind, get_state in H1.
    destruct (Core.py_or _ _); cbn in H1; by injection H1 as _ <-. }
  destruct (Core.split_self_documents B s) as [[docs|e2] s2] eqn:H2.
  2:{ intros _. unfold Core.split_self_documents, bind, get_state in H2.
      repeat case_match; cbn in H2; by injection H2 as _ <-. }
  assert (s2 = s) as ->.
  { unfold Core.split_self_documents, bind, get_state in H2.
    repeat case_match; cbn in H2; by injection H2 as _ <-. }
  unfold get_state, Core.on_chroma.
  destruct (from_documents _ _ _ _) as [[d|e3] b']; [done|done].
Qed.

Lemma run_op_db_None (o : Core.op) (s : Core.State) :
  Core.db s = None →
  (Core.is_fit o && Core.returned (Core.run_op B o s).1) = false →
  Core.db (Core.run_op B o s).2 = None.
Proof.
  intros Hd Hnf.
  assert (not_fitted s) as Hs by (by right).
  destruct o as [| |docs|docs|prompt|prompt|fresh_id]; cbn [Core.run_op Core.is_fit] in *.
  - unfold Core.fit in *.
    destruct (Core.fit_with B _ s).1 as [[]|e] eqn:Hr; [done|].
    destruct (fit_with_raise_db _ s e Hr) as (Hc & Hi & _).
    unfold Core.db in *. by rewrite Hc, Hi.
  - unfold Core.afit in *.
    destruct (Core.fit_with B _ s).1 as [[]|e] eqn:Hr; [done|].
    destruct (fit_with_raise_db _ s e Hr) as (Hc & Hi & _).
    unfold Core.db in *. by rewrite Hc, Hi.
  - by rewrite (proj1 (proj2 (proj2 (not_fitted_calls_raise s "" docs Hs)))).
  - by rewrite (proj2 (proj2 (proj2 (not_fitted_calls_raise s "" docs Hs)))).
  - by rewrite (proj1 (not_fitted_calls_raise s prompt [] Hs)).
  - by rewrite (proj1 (proj2 (not_fitted_calls_raise s prompt [] Hs))).
  - by rewrite clear_memory_run.
Qed.

Lemma run_ops_db_None (ops : list Core.op) (s : Core.State) :
  Core.db s = None →
  Core.no_fit_returned B ops s = true →
  Core.db (Core.run_ops B ops s) = None.
Proof.
  revert s. induction ops as [|o rest IH]; intros s Hd Hno; [done|].
  cbn [Core.run_ops Core.no_fit_returned] in *.
  destruct (Core.run_op B o s) as [r s'] eqn:Hrun.
  apply andb_true_iff in Hno as [Hno Hrest]. apply negb_true_iff in Hno.
  cbn [snd]. apply IH; [|done].
  pose proof (run_op_db_None o s Hd) as H. rewrite Hrun in H. by apply H.
Qed.

Lemma constructor_run (a : Core.init_args) (fresh_id : string) (w : Core.World) :
  Core.CloneLLM_new a fresh_id w
  = (Return (Core.self (constructed a fresh_id w)),
     Core.world_of (constructed a fresh_id w)).
Proof. done. Qed.


(** C7, amended.  An instance made by the constructor while the class
    holds no index has no index; from a state with no index, no sequence
    of calls of [fit], [afit], [update], [aupdate], [completion],
    [acompletion] and [clear_memory] in which no [fit] or [afit] returned
    ends with an index.  The other construction path,
    [from_persist_directory], returns an instance whose [db] is the
    index it opened and that passes the fitted check, without [fit]. *)
Theorem C7_db_None_until_fit_or_load :
  (∀ a fresh_id w,
     Core.cls_db (Core.w_cls w) = None →
     Core.CloneLLM_new a fresh_id w
       = (Return (Core.self (constructed a fresh_id w)),
          Core.world_of (constructed a fresh_id w)) ∧
     Core.db (constructed a fresh_id w) = None) ∧
  (∀ ops s,
     Core.db s = None →
     Core.no_fit_returned B ops s = true →
     Core.db (Core.run_ops B ops s) = None) ∧
  (∀ dir a fresh_id w d,
     Core.Chroma_open B Core._CHROMA_COLLECTION_NAME (Core.arg_embedding a) dir
       = Return d →
     ∃ i w', Core.from_persist_directory B dir a fresh_id w = (Return i, w') ∧
       Core.db (Core.enter i w') = Some d ∧
       Core.is_fitted (Core.enter i w') = true).
Proof.
  split; [|split].
  - intros a fresh_id w Hw. split; [apply constructor_run|].
    unfold constructed, Core.db. simpl. done.
  - apply run_ops_db_None.
  - intros dir a fresh_id w d Hopen.
    unfold Core.from_persist_directory, bind, call. rewrite Hopen.
    eexists _, _. split; [reflexivity|]. done.
Qed.

(** On a [str] the lookup on any value is [get_by_session_id]. *)
Lemma get_history_str (session_id : string) :
  Memory.get_history (Some session_id) = Memory.get_by_session_id session_id.
Proof. reflexivity. Qed.

(** The lookup on any value, for an id with no entry. *)
Lemma get_history_absent (k : option string) (st : Memory.state) :
  Memory._store st !! k = None →
  Memory.get_history k st = (Raise Memory.missing_memory_argument, st).
Proof.
  intros Hk. unfold Memory.get_history, bind, Memory.store_contains.
  rewrite Hk. by rewrite bool_decide_eq_false_2 by (intros [? ?]; done).
Qed.

(** The path with [memory] on, for a session id with no entry: the
    lookup raises before the chain is invoked. *)
Lemma completion_with_absent_session inv hinv (s : Core.State) (prompt : string)
    (d : Core.Chroma) (llm : Core.ChatLiteLLM) :
  Core.is_fitted s = true →
  Core.db s = Some d →
  Core.own_llm (Core.self s) = Some llm →
  Core.memory_truthy (Core.memory (Core.self s)) = true →
  Memory._store (Core.mem s) !! Core._session_id s = None →
  Core.completion_with B inv hinv prompt s
  = (Raise Memory.missing_memory_argument, s).
Proof.
  intros Hf Hd Hl Hm Hid.
  destruct (get_rag_chain_with_history_ok s d llm Hd Hl) as (c & Hc & _).
  unfold Core.completion_with, bind.
  rewrite check_is_fitted_fitted; [|split; [done|by exists d]|done].
  unfold get_state. rewrite Hm, Hc.
  unfold Core.invoke_with_history, bind, Core.lift_mem.
  rewrite (get_history_absent _ _ Hid). by destruct s.
Qed.

(** C9, as the code behaves.  The specification asks that after
    [clear_memory] the next [completion] with [memory] on see an empty
    history.  In the code [clear_memory] returns, clears the entry of
    the session id the instance held and then takes the new id; but on
    a fitted instance with [memory] on the next [completion] sees no
    history at all: the lookup of the new id, which has no entry, raises
    [TypeError] before the chain is invoked, and the state is left as
    [clear_memory] left it. *)
Theorem C9_completion_after_clear_raises (s : Core.State) (fresh_id prompt : string)
    (d : Core.Chroma) (llm : Core.ChatLiteLLM) :
  Memory._store (Core.mem s) !! Some fresh_id = None →
  Core.is_fitted s = true →
  Core.db s = Some d →
  Core.own_llm (Core.self s) = Some llm →
  Core.memory_truthy (Core.memory (Core.self s)) = true →
  let s1 := (Core.clear_memory fresh_id s).2 in
  (Core.clear_memory fresh_id s).1 = Return tt ∧
  Memory._store (Core.mem s1)
    = delete (Core._session_id s) (Memory._store (Core.mem s)) ∧
  Memory.heap (Core.mem s1) = Memory.heap (Core.mem s) ∧
  Core._session_id s1 = Some fresh_id ∧
  Core.completion B prompt s1 = (Raise Memory.missing_memory_argument, s1) ∧
  Core.acompletion B prompt s1 = (Raise Memory.missing_memory_argument, s1).
Proof.
  intros Hfresh Hf Hd Hl Hm s1.
  assert (Memory._store (Core.mem s1) !! Core._session_id s1 = None) as Hfresh1.
  { unfold s1. rewrite clear_memory_run. cbn.
    apply lookup_delete_None. by right. }
  split; [done|]. split; [done|]. split; [done|]. split; [done|].
  unfold Core.completion, Core.acompletion.
  by rewrite !(completion_with_absent_session _ _ s1 prompt d llm).
Qed.

End Orchestrator.

(** ** The properties on a run *)



Lemma bad_batch_first_invalid : first_invalid bad_batch 1.
Proof.
  split.
  - exists (Core.PyOther "42"). split; reflexivity.
  - intros j Hj. assert (j = 0) as -> by lia. by exists doc1.
Qed.

Lemma C6_invalid_document_aborts_witness :
  Core.fit list_backend persona_bad
    = (Raise (ValueError "document at index 1 is not a valid Document"), persona_bad) ∧
  Core.update list_backend bad_batch persona_fitted
    = (Raise (ValueError "document at index 1 is not a valid Document"), persona_fitted).
Proof.
  split.
  - refine (proj1 (proj1 (proj2
      (C6_invalid_document_aborts list_backend persona_bad bad_batch 1
         bad_batch_first_invalid)) _)).
    reflexivity.
  - refine (proj1 (proj2 (proj2
      (C6_invalid_document_aborts list_backend persona_fitted bad_batch 1
         bad_batch_first_invalid)) _ _)).
    + split; [reflexivity|]. vm_compute. eauto.
    + vm_compute. eauto.
Defined.

Lemma C4_update_adds_own_corpus_witness :
  Core.chunks <$>
    Core.db (Core.update list_backend [Core.PyDocument doc2] persona_fitted).2
  = Some [doc1; doc1].
Proof.
  rewrite (proj1 (C4_update_adds_own_corpus list_backend persona_fitted
             [Core.PyDocument doc2] [doc2]
             {| Core.chunk_size := 2000; Core.chunk_overlap := 100 |}
             [Core.PyDocument doc1] [doc1]
             ltac:(split; [reflexivity | vm_compute; eauto])
             eq_refl ltac:(discriminate) eq_refl eq_refl eq_refl)).
  reflexivity.
Defined.

Lemma C8_stateless_completion_witness :
  Core.completion telling_backend "Who are you?" persona_fitted
    = (Return "I am Ada. | k=1 | context; Ada; input | gpt-4o | Who are you?",
       persona_fitted) ∧
  Memory._store (Core.mem persona_fitted) = ∅.
Proof.
  destruct (C8_stateless_completion telling_backend persona_fitted "Who are you?"
              {| Core.collection_name := "clonellm";
                 Core.embedding_function :=
                   {| Core.embedding_name := "text-embedding-3-small" |};
                 Core.persist_directory := None;
                 Core.chunks := [doc1] |}
              {| Core.llm_model := "gpt-4o"; Core.llm_api_key := None |}
              eq_refl eq_refl eq_refl eq_refl) as (Hc & _).
  split; [exact Hc|]. reflexivity.
Defined.

(** C7, the claim as written fails: an instance returned by
    [from_persist_directory] has never been through [fit] (it has no
    fitted flag and no index of its own), and its [db] is the index
    that was opened. *)
Lemma C7_from_persist_directory_has_db :
  ∃ i w',
    Core.from_persist_directory list_backend "./chroma"
      (sample_args None None) "id-0" fresh_world = (Return i, w') ∧
    Core.own_is_fitted i = None ∧
    Core.own_db i = None ∧
    Core.chunks <$> Core.db (Core.enter i w') = Some [] ∧
    Core.persist_directory <$> Core.db (Core.enter i w') = Some (Some "./chroma").
Proof. eexists _, _. split; [reflexivity|]. repeat split. Qed.

Lemma C7_db_None_until_fit_or_load_witness :
  Core.db persona_new = None ∧
  Core.db (Core.run_ops list_backend
             [Core.Update [Core.PyDocument doc2]; Core.Completion "Who are you?";
              Core.ClearMemory "id-1"; Core.AUpdate []; Core.ACompletion "And now?"]
             persona_new) = None ∧
  Core.db (Core.run_ops list_backend [Core.Fit; Core.ClearMemory "id-1"] persona_bad)
    = None.
Proof.
  split; [|split].
  - apply (proj1 (C7_db_None_until_fit_or_load list_backend)). reflexivity.
  - apply (proj1 (proj2 (C7_db_None_until_fit_or_load list_backend))); reflexivity.
  - apply (proj1 (proj2 (C7_db_None_until_fit_or_load list_backend))); reflexivity.
Defined.

Lemma C9_completion_after_clear_raises_witness :
  let s1 := (Core.clear_memory "id-1" persona_with_memory).2 in
  Core._session_id s1 = Some "id-1" ∧
  Core.completion list_backend "again" s1
    = (Raise Memory.missing_memory_argument, s1).
Proof.
  destruct (C9_completion_after_clear_raises list_backend persona_with_memory
              "id-1" "again"
              {| Core.collection_name := "clonellm";
                 Core.embedding_function :=
                   {| Core.embedding_name := "text-embedding-3-small" |};
                 Core.persist_directory := None;
                 Core.chunks := [doc1] |}
              {| Core.llm_model := "gpt-4o"; Core.llm_api_key := None |}
              eq_refl eq_refl eq_refl eq_refl eq_refl)
    as (_ & _ & _ & Hid & Hc & _).
  cbv zeta. split; [exact Hid|exact Hc].
Defined.

(** * Further properties *)

(** ** [InMemoryHistory] *)

Lemma history_eq (h1 h2 : Memory.InMemoryHistory) :
  Memory.messages h1 = Memory.messages h2 →
  Memory.memory h1 = Memory.memory h2 →
  h1 = h2.
Proof. destruct h1, h2. simpl. by intros -> ->. Qed.

Lemma last_n_all {A} (k : nat) (l : list A) : length l ≤ k → last_n k l = l.
Proof. intros H. unfold last_n. by replace (length l - k) with 0 by lia. Qed.

Lemma last_n_app_ge {A} (k : nat) (xs ys : list A) :
  k ≤ length ys → last_n k (xs ++ ys) = last_n k ys.
Proof.
  intros H. unfold last_n. rewrite length_app.
  replace (length xs + length ys - k) with (length xs + (length ys - k)) by lia.
  apply drop_app_add.
Qed.

Lemma last_n_app_le {A} (k : nat) (xs ys : list A) :
  length ys ≤ k → ys `suffix_of` last_n k (xs ++ ys).
Proof.
  intros H. unfold last_n. rewrite length_app.
  rewrite drop_app_le by lia. by apply suffix_app_r.
Qed.

(** What [add_messages] stores, for either sign of the bound. *)
Lemma add_messages_messages msgs h :
  Memory.messages (Memory.add_messages msgs h)
  = if (0 <? Memory.memory h)%Z
    then last_n (Z.to_nat (Memory.memory h)) (Memory.messages h ++ msgs)
    else Memory.messages h ++ msgs.
Proof.
  destruct (Z.ltb_spec 0 (Memory.memory h)).
  - by apply add_messages_positive.
  - by apply add_messages_unbounded.
Qed.

(** X1.  Two appends in a row store what one append of the two batches
    joined stores: cutting to the bound after the first batch loses
    nothing the cut after the second would keep. *)
Theorem X1_add_messages_compose (b1 b2 : list Memory.BaseMessage)
    (h : Memory.InMemoryHistory) :
  Memory.add_messages b2 (Memory.add_messages b1 h)
  = Memory.add_messages (b1 ++ b2) h.
Proof.
  apply history_eq; [|by rewrite !add_messages_memory].
  rewrite !add_messages_messages, add_messages_memory.
  destruct (0 <? Memory.memory h)%Z.
  - by rewrite last_n_app_last_n, app_assoc.
  - by rewrite app_assoc.
Qed.

(** X2.  Whatever the history held before, after [add_messages] it holds
    a tail of the old messages followed by the new ones, in their order;
    with a bound [m > 0] it holds [min(old + new, m)] messages, so never
    more than [m], and with [m <= 0] it holds them all. *)
Theorem X2_add_messages_bound (msgs : list Memory.BaseMessage)
    (h : Memory.InMemoryHistory) :
  let h' := Memory.add_messages msgs h in
  Memory.messages h' `suffix_of` (Memory.messages h ++ msgs) ∧
  ((0 < Memory.memory h)%Z →
     length (Memory.messages h')
       = (length (Memory.messages h) + length msgs) `min` Z.to_nat (Memory.memory h) ∧
     (Z.of_nat (length (Memory.messages h')) ≤ Memory.memory h)%Z) ∧
  ((Memory.memory h ≤ 0)%Z → Memory.messages h' = Memory.messages h ++ msgs).
Proof.
  intros h'. unfold h'. rewrite add_messages_messages. split; [|split].
  - destruct (0 <? Memory.memory h)%Z; [apply suffix_drop|done].
  - intros Hm. destruct (Z.ltb_spec 0 (Memory.memory h)); [|lia].
    rewrite length_last_n, length_app. lia.
  - intros Hm. by destruct (Z.ltb_spec 0 (Memory.memory h)); [lia|].
Qed.

Lemma X2_add_messages_bound_witness :
  Memory.messages (Memory.add_messages [msg_a; msg_b] overlong_history)
    = [msg_a; msg_b] ∧
  length (Memory.messages (Memory.add_messages [msg_a] overlong_history)) = 2.
Proof.
  split; [reflexivity|].
  exact (proj1 (proj1 (proj2 (X2_add_messages_bound [msg_a] overlong_history))
                  ltac:(simpl; lia))).
Defined.

(** X3.  With a bound [m > 0]: a batch of at most [m] messages is kept
    whole, at the end of the history; a batch of [m] messages or more
    leaves nothing of what the history held before, only the last [m] of
    the batch. *)
Theorem X3_add_messages_newest_kept (msgs : list Memory.BaseMessage)
    (h : Memory.InMemoryHistory) :
  (0 < Memory.memory h)%Z →
  ((Z.of_nat (length msgs) ≤ Memory.memory h)%Z →
     msgs `suffix_of` Memory.messages (Memory.add_messages msgs h)) ∧
  ((Memory.memory h ≤ Z.of_nat (length msgs))%Z →
     Memory.messages (Memory.add_messages msgs h)
       = last_n (Z.to_nat (Memory.memory h)) msgs).
Proof.
  intros Hm. rewrite add_messages_positive by done. split; intros Hlen.
  - apply last_n_app_le. lia.
  - apply last_n_app_ge. lia.
Qed.

Lemma X3_add_messages_newest_kept_witness :
  [msg_c] `suffix_of` Memory.messages (Memory.add_messages [msg_c] short_history) ∧
  Memory.messages (Memory.add_messages [msg_a; msg_b; msg_c] short_history)
    = [msg_b; msg_c].
Proof.
  split.
  - exact (proj1 (X3_add_messages_newest_kept [msg_c] short_history
                    ltac:(simpl; lia)) ltac:(simpl; lia)).
  - exact (proj2 (X3_add_messages_newest_kept [msg_a; msg_b; msg_c] short_history
                    ltac:(simpl; lia)) ltac:(simpl; lia)).
Defined.

(** X4.  An append of no message is not always a no-op: it leaves a
    history alone when the bound is not positive or the history is
    within it, and otherwise cuts the history to its last [m] messages.
    Right after any append it changes nothing. *)
Theorem X4_add_messages_empty_batch (h : Memory.InMemoryHistory)
    (msgs : list Memory.BaseMessage) :
  (((Memory.memory h ≤ 0)%Z ∨
    (Z.of_nat (length (Memory.messages h)) ≤ Memory.memory h)%Z) →
     Memory.add_messages [] h = h) ∧
  ((0 < Memory.memory h)%Z →
     Memory.messages (Memory.add_messages [] h)
       = last_n (Z.to_nat (Memory.memory h)) (Memory.messages h)) ∧
  Memory.add_messages [] (Memory.add_messages msgs h) = Memory.add_messages msgs h.
Proof.
  split; [|split].
  - intros Hh. apply history_eq; [|by rewrite add_messages_memory].
    rewrite add_messages_messages, app_nil_r.
    destruct (Z.ltb_spec 0 (Memory.memory h)); [|done].
    apply last_n_all. lia.
  - intros Hm. by rewrite add_messages_positive, app_nil_r.
  - apply history_eq; [|by rewrite !add_messages_memory].
    rewrite (add_messages_messages []), add_messages_memory, app_nil_r.
    destruct (Z.ltb_spec 0 (Memory.memory h)) as [Hm|Hm]; [|done].
    apply last_n_all. rewrite add_messages_positive, length_last_n by done. lia.
Qed.

Lemma X4_add_messages_empty_batch_witness :
  Memory.add_messages [] short_history = short_history ∧
  Memory.messages (Memory.add_messages [] overlong_history) = [msg_b; msg_c].
Proof.
  split.
  - apply (proj1 (X4_add_messages_empty_batch short_history [])).
    right. simpl. lia.
  - exact (proj1 (proj2 (X4_add_messages_empty_batch overlong_history []))
             ltac:(simpl; lia)).
Defined.

(** X5.  [clear] after any appends leaves the history with no message
    and the bound it had; appends after it are cut to that same
    bound. *)
Theorem X5_clear_resets (batches later : list (list Memory.BaseMessage))
    (h : Memory.InMemoryHistory) :
  Memory.clear (append_batches batches h) = empty_history (Memory.memory h) ∧
  Memory.messages (append_batches later (Memory.clear (append_batches batches h)))
    = if (0 <? Memory.memory h)%Z
      then last_n (Z.to_nat (Memory.memory h)) (concat later)
      else concat later.
Proof.
  assert (Memory.clear (append_batches batches h) = empty_history (Memory.memory h))
    as Hc by (unfold Memory.clear; by rewrite append_batches_memory).
  rewrite Hc. split; [done|].
  destruct (Z.ltb_spec 0 (Memory.memory h)) as [Hm|Hm].
  - rewrite (append_batches_positive _ _ []); [done|done|].
    simpl. unfold last_n. by rewrite drop_nil.
  - by rewrite append_batches_unbounded.
Qed.

(** ** [get_by_session_id] *)

(** X6.  [get_by_session_id] returns a history exactly when the store
    already has an entry for the id, and then returns that entry; it
    never changes the store or creates a history, whether it returns or
    raises.  So lookups and appends, in any number and order, leave the
    store with the entries it had: starting from the empty store, none. *)
Theorem X6_get_never_creates (session_id : string) (st : Memory.state)
    (uses : list store_use) :
  (Memory.get_by_session_id session_id st).2 = st ∧
  (∀ l, (Memory.get_by_session_id session_id st).1 = Return l
        ↔ Memory._store st !! Some session_id = Some l) ∧
  Memory._store (run_store_uses uses st) = Memory._store st ∧
  length (Memory.heap (run_store_uses uses st)) = length (Memory.heap st) ∧
  Memory._store (run_store_uses uses Memory.initial) = ∅.
Proof.
  split; [apply get_by_session_id_state|]. split; [|split; [|split]].
  - intros l. destruct (Memory._store st !! Some session_id) as [l'|] eqn:Hl.
    + rewrite (get_by_session_id_present _ _ l') by done. simpl.
      split; congruence.
    + rewrite get_by_session_id_absent by done. simpl. split; congruence.
  - apply run_store_uses_store.
  - apply run_store_uses_heap_length.
  - by rewrite run_store_uses_store.
Qed.

(** ** [_check_documents], [fit] and [update] *)

Section MoreOrchestrator.

Variable B : Core.Collaborators.

Lemma as_documents_all (docs : list Core.pyobj) :
  all_documents docs ↔ ∃ ds, Core.as_documents docs = Some ds.
Proof.
  unfold all_documents. induction docs as [|[d|r] rest IH]; simpl.
  - split; [by exists []|by constructor].
  - rewrite Forall_cons, IH. split.
    + intros [_ [ds ->]]. by eexists.
    + intros [ds H]. split; [done|].
      destruct (Core.as_documents rest) as [ds'|]; [by exists ds'|done].
  - rewrite Forall_cons. split; [by intros [? _]|by intros [? ?]].
Qed.

(** A list is all [Document]s or has a first element that is not. *)
Lemma all_documents_or_first_invalid (docs : list Core.pyobj) :
  all_documents docs ∨ ∃ i, first_invalid docs i.
Proof.
  unfold all_documents. induction docs as [|[d|r] rest IH].
  - left. constructor.
  - destruct IH as [IH|[i [(o & Ho & Hno) Hbefore]]].
    + left. by constructor.
    + right. exists (S i). split; [by exists o|].
      intros [|j] Hj; [by exists d|]. apply Hbefore. lia.
  - right. exists 0. split; [by exists (Core.PyOther r)|]. intros j Hj. lia.
Qed.

Lemma first_invalid_not_all (docs : list Core.pyobj) (i : nat) :
  first_invalid docs i → ¬ all_documents docs.
Proof.
  intros [(o & Ho & Hno) _] Hall.
  pose proof (Forall_lookup_1 _ _ _ _ Hall Ho) as H. simpl in H. congruence.
Qed.

Lemma first_invalid_unique (docs : list Core.pyobj) (i j : nat) :
  first_invalid docs i → first_invalid docs j → i = j.
Proof.
  intros [(o & Ho & Hno) Hi] [(o' & Ho' & Hno') Hj].
  destruct (Nat.lt_trichotomy i j) as [Hlt|[->|Hlt]]; [|done|].
  - destruct (Hj i Hlt) as [d Hd]. rewrite Ho in Hd. injection Hd as ->. done.
  - destruct (Hi j Hlt) as [d Hd]. rewrite Ho' in Hd. injection Hd as ->. done.
Qed.

(** X7.  On a non-empty list, [_check_documents] decides whether every
    element is a [Document]: it returns exactly when all are, and
    otherwise raises the [ValueError] of the first that is not; either
    way it changes nothing. *)
Theorem X7_check_documents_decides (docs : list Core.pyobj) (s : Core.State) :
  docs ≠ [] →
  (Core._check_documents (Some docs) s).2 = s ∧
  ((Core._check_documents (Some docs) s).1 = Return tt ↔ all_documents docs) ∧
  (∀ i, (Core._check_documents (Some docs) s).1
          = Raise (ValueError (Core.invalid_document_message i))
        ↔ first_invalid docs i).
Proof.
  intros Hne.
  destruct (all_documents_or_first_invalid docs) as [Hall|[i Hi]].
  - destruct (proj1 (as_documents_all docs) Hall) as [ds Hds].
    rewrite (check_documents_given_valid docs ds) by done. simpl.
    split; [done|]. split; [done|]. intros i. split; [done|].
    intros Hi. by destruct (first_invalid_not_all docs i).
  - rewrite (check_documents_given_invalid docs i) by done. simpl.
    split; [done|]. split.
    + split; [done|]. intros Hall. by destruct (first_invalid_not_all docs i).
    + intros j. split.
      * intros Hj.
        apply (f_equal (λ o : outcome unit,
                  match o with Raise (ValueError m) => m | _ => EmptyString end)) in Hj.
        by rewrite <- (invalid_document_message_inj i j Hj).
      * intros Hj. by rewrite (first_invalid_unique docs i j).
Qed.

Lemma check_documents_state (docs : option (list Core.pyobj)) (s : Core.State) :
  (Core._check_documents docs s).2 = s.
Proof.
  unfold Core._check_documents, bind, get_state.
  by destruct (Core.py_or docs (Core.documents (Core.self s))).
Qed.

Lemma check_documents_from_return (docs : list Core.pyobj) (k : nat) :
  Core.check_documents_from k docs = Return tt →
  ∃ ds, Core.as_documents docs = Some ds.
Proof.
  intros H. destruct (all_documents_or_first_invalid docs) as [Hall|[i Hi]].
  - by apply as_documents_all.
  - by rewrite (check_documents_from_first_invalid docs k i Hi) in H.
Qed.

Lemma split_self_documents_state (s : Core.State) :
  (Core.split_self_documents B s).2 = s.
Proof.
  unfold Core.split_self_documents, bind, get_state.
  destruct (Core._splitter s); [|done].
  destruct (Core.documents (Core.self s)) as [l|]; [|done].
  by destruct (Core.as_documents l).
Qed.

Lemma check_documents_own_valid (s : Core.State) corpus ds :
  Core.documents (Core.self s) = Some corpus →
  Core.as_documents corpus = Some ds →
  Core._check_documents None s = (Return tt, s).
Proof.
  intros Hc Hds. unfold Core._check_documents, bind, get_state, call.
  cbn [Core.py_or]. by rewrite Hc, (check_documents_from_valid corpus 0 ds).
Qed.

(** A state is its four components. *)
Lemma state_eta (s : Core.State) :
  {| Core.cls := Core.cls s; Core.self := Core.self s; Core.mem := Core.mem s;
     Core.chroma := Core.chroma s |} = s.
Proof. by destruct s. Qed.

Lemma fit_with_success from_documents (s : Core.State) sp corpus ds d b' :
  Core._splitter s = Some sp →
  Core.documents (Core.self s) = Some corpus →
  Core.as_documents corpus = Some ds →
  from_documents (Core.chroma s) (Core.split_documents B sp ds)
    (Core.embedding (Core.self s)) Core._CHROMA_COLLECTION_NAME = (Return d, b') →
  Core.fit_with B from_documents s
  = (Return tt,
     {| Core.cls := Core.cls s;
        Core.self := Core.with_is_fitted true (Core.with_db d (Core.self s));
        Core.mem := Core.mem s;
        Core.chroma := b' |}).
Proof.
  intros Hsp Hc Hds Hfd. unfold Core.fit_with, bind.
  rewrite (check_documents_own_valid s corpus ds) by done.
  rewrite (split_self_documents_ok B s sp corpus ds) by done.
  unfold get_state, Core.on_chroma. by rewrite Hfd.
Qed.

(** [fit] and [afit] either raise, with the class, the instance and the
    session store as they were, or return with the index the vector
    store built from the split corpus and the flag set on the
    instance.  The collections are as the vector store left them. *)
Lemma fit_with_outcome from_documents (s : Core.State) :
  (∃ e b', Core.fit_with B from_documents s
           = (Raise e, {| Core.cls := Core.cls s; Core.self := Core.self s;
                          Core.mem := Core.mem s; Core.chroma := b' |})) ∨
  (∃ sp corpus ds d b',
     Core._splitter s = Some sp ∧
     Core.documents (Core.self s) = Some corpus ∧
     Core.as_documents corpus = Some ds ∧
     from_documents (Core.chroma s) (Core.split_documents B sp ds)
       (Core.embedding (Core.self s)) Core._CHROMA_COLLECTION_NAME = (Return d, b') ∧
     Core.fit_with B from_documents s
     = (Return tt,
        {| Core.cls := Core.cls s;
           Core.self := Core.with_is_fitted true (Core.with_db d (Core.self s));
           Core.mem := Core.mem s;
           Core.chroma := b' |})).
Proof.
  assert (∀ o, Core.fit_with B from_documents s = (o, s) →
               (∃ e, o = Raise e) →
               ∃ e b', Core.fit_with B from_documents s
                       = (Raise e, {| Core.cls := Core.cls s; Core.self := Core.self s;
                                      Core.mem := Core.mem s; Core.chroma := b' |}))
    as Hraise.
  { intros o Ho [e ->]. exists e, (Core.chroma s). by rewrite state_eta. }
  destruct (Core.documents (Core.self s)) as [corpus|] eqn:Hc.
  2:{ left. eapply Hraise; [|by eexists].
      unfold Core.fit_with, Core._check_documents, bind, get_state.
      cbn [Core.py_or]. by rewrite Hc. }
  destruct (Core.check_documents_from 0 corpus) as [[]|e] eqn:Hchk.
  2:{ left. eapply Hraise; [|by eexists].
      unfold Core.fit_with, Core._check_documents, bind, get_state, call.
      cbn [Core.py_or]. by rewrite Hc, Hchk. }
  destruct (check_documents_from_return corpus 0 Hchk) as [ds Hds].
  assert (Core._check_documents None s = (Return tt, s)) as Hcheck.
  { unfold Core._check_documents, bind, get_state, call.
    cbn [Core.py_or]. by rewrite Hc, Hchk. }
  destruct (Core._splitter s) as [sp|] eqn:Hsp.
  2:{ left. eapply Hraise; [|by eexists].
      unfold Core.fit_with, bind. rewrite Hcheck.
      unfold Core.split_self_documents, bind, get_state. by rewrite Hsp. }
  destruct (from_documents (Core.chroma s) (Core.split_documents B sp ds)
              (Core.embedding (Core.self s)) Core._CHROMA_COLLECTION_NAME)
    as [[d|e] b'] eqn:Hfd.
  2:{ left. exists e, b'.
      unfold Core.fit_with, bind. rewrite Hcheck.
      rewrite (split_self_documents_ok B s sp corpus ds) by done.
      unfold get_state, Core.on_chroma. by rewrite Hfd. }
  right. exists sp, corpus, ds, d, b'. split; [done|]. split; [done|].
  split; [done|]. split; [done|].
  by apply (fit_with_success from_documents s sp corpus ds d b').
Qed.

(** X8.  When the corpus is a list of [Document]s and the vector store,
    given the chunks of the corpus, returns an index [d], [fit] returns,
    leaves the instance with [d] as its index and counting as fitted,
    and changes nothing else of the instance, the class or the session
    store; the collections of the vector store are as that call left
    them. *)
Theorem X8_fit_success (s : Core.State) (sp : Core.TextSplitter)
    (corpus : list Core.pyobj) (ds : list Core.Document) (d : Core.Chroma)
    (b' : Core.Backend) :
  Core._splitter s = Some sp →
  Core.documents (Core.self s) = Some corpus →
  Core.as_documents corpus = Some ds →
  Core.Chroma_from_documents B (Core.chroma s) (Core.split_documents B sp ds)
    (Core.embedding (Core.self s)) Core._CHROMA_COLLECTION_NAME = (Return d, b') →
  let s' := (Core.fit B s).2 in
  (Core.fit B s).1 = Return tt ∧
  Core.db s' = Some d ∧
  Core.is_fitted s' = true ∧
  Core._check_is_fitted true s' = (Return tt, s') ∧
  Core.cls s' = Core.cls s ∧
  Core.mem s' = Core.mem s ∧
  Core.self s' = Core.with_is_fitted true (Core.with_db d (Core.self s)) ∧
  Core.chroma s' = b'.
Proof.
  intros Hsp Hc Hds Hd s'. unfold s', Core.fit.
  rewrite (fit_with_success _ s sp corpus ds d b') by done. cbn.
  split; [done|]. split; [done|]. split; [done|]. split; [|done].
  unfold Core._splitter in Hsp. by rewrite Hsp.
Qed.

(** X9.  [fit] and [afit] are all or nothing.  If one raises, for
    whatever reason (no documents, a bad document, the splitter, the
    vector store), the class, the instance and the session store are
    what they were: no index is assigned and no flag set.  If one
    returns, the instance has an index and counts as fitted. *)
Theorem X9_fit_all_or_nothing (s : Core.State) :
  (∀ e, (Core.fit B s).1 = Raise e →
     Core.cls (Core.fit B s).2 = Core.cls s ∧
     Core.self (Core.fit B s).2 = Core.self s ∧
     Core.mem (Core.fit B s).2 = Core.mem s) ∧
  (∀ e, (Core.afit B s).1 = Raise e →
     Core.cls (Core.afit B s).2 = Core.cls s ∧
     Core.self (Core.afit B s).2 = Core.self s ∧
     Core.mem (Core.afit B s).2 = Core.mem s) ∧
  ((Core.fit B s).1 = Return tt → fitted (Core.fit B s).2) ∧
  ((Core.afit B s).1 = Return tt → fitted (Core.afit B s).2).
Proof.
  unfold Core.fit, Core.afit.
  assert (∀ fd, (∀ e, (Core.fit_with B fd s).1 = Raise e →
                   Core.cls (Core.fit_with B fd s).2 = Core.cls s ∧
                   Core.self (Core.fit_with B fd s).2 = Core.self s ∧
                   Core.mem (Core.fit_with B fd s).2 = Core.mem s)
              ∧ ((Core.fit_with B fd s).1 = Return tt → fitted (Core.fit_with B fd s).2))
    as H.
  { intros fd.
    destruct (fit_with_outcome fd s)
      as [(e & b' & He)|(sp & corpus & ds & d & b' & _ & _ & _ & _ & Hrun)].
    - rewrite He. by split.
    - rewrite Hrun. split; [done|]. intros _. split; [done|]. by eexists. }
  split; [apply H|]. split; [apply H|]. split; apply H.
Qed.

Lemma same_but_index_refl (s : Core.State) : same_but_index s s.
Proof. by repeat split. Qed.

Lemma db_add_same_but_index add chunks (s : Core.State) :
  same_but_index s (Core.db_add add chunks s).2.
Proof.
  unfold Core.db_add.
  destruct (Core.own_db (Core.self s)) as [d|] eqn:Hown.
  - destruct (add d chunks) as [r d']. cbn. unfold same_but_index. cbn.
    rewrite Hown. by repeat split.
  - destruct (Core.cls_db (Core.cls s)) as [d|] eqn:Hcls.
    + destruct (add d chunks) as [r d']. unfold same_but_index. cbn.
      rewrite Hcls. by repeat split.
    + apply same_but_index_refl.
Qed.

Lemma check_is_fitted_state (from_update : bool) (s : Core.State) :
  (Core._check_is_fitted from_update s).2 = s.
Proof.
  unfold Core._check_is_fitted, bind, get_state.
  by destruct (negb (Core.is_fitted s) || Core.is_None (Core.db s)
               || (if from_update then Core.is_None (Core._splitter s) else false)).
Qed.

(** [update] and [aupdate] either raise with nothing changed, or are
    the call of [add_documents] on some chunks, on a fitted instance. *)
Lemma update_with_outcome add (docs : list Core.pyobj) (s : Core.State) :
  (∃ e, Core.update_with B add docs s = (Raise e, s)) ∨
  (∃ chunks, fitted s ∧ Core.update_with B add docs s = Core.db_add add chunks s).
Proof.
  unfold Core.update_with, bind.
  pose proof (check_is_fitted_state true s) as H1.
  destruct (Core._check_is_fitted true s) as [[[]|e1] s1] eqn:Hfit;
    simpl in H1; subst s1; [|left; by eexists].
  assert (fitted s) as Hf.
  { revert Hfit. unfold Core._check_is_fitted, bind, get_state, fitted.
    destruct (Core.is_fitted s), (Core.db s); cbn; try done. }
  pose proof (check_documents_state (Some docs) s) as H2.
  destruct (Core._check_documents (Some docs) s) as [[[]|e2] s2];
    simpl in H2; subst s2; [|left; by eexists].
  pose proof (split_self_documents_state s) as H3.
  destruct (Core.split_self_documents B s) as [[chunks|e3] s3];
    simpl in H3; subst s3; [|left; by eexists].
  right. by exists chunks.
Qed.

(** X10.  [update] and [aupdate] change at most the index: whatever
    they are given and whether they return or raise, the session store,
    the fitted flags, the corpus, the session id and every other field
    are as before, and no index appears or disappears. *)
Theorem X10_update_changes_only_index (docs : list Core.pyobj) (s : Core.State) :
  same_but_index s (Core.update B docs s).2 ∧
  same_but_index s (Core.aupdate B docs s).2.
Proof.
  unfold Core.update, Core.aupdate.
  assert (∀ add, same_but_index s (Core.update_with B add docs s).2) as H.
  { intros add. destruct (update_with_outcome add docs s) as [[e ->]|[chunks [_ ->]]].
    - apply same_but_index_refl.
    - apply db_add_same_but_index. }
  split; apply H.
Qed.

Lemma update_with_empty add (s : Core.State) sp corpus ds :
  fitted s →
  Core._splitter s = Some sp →
  Core.documents (Core.self s) = Some corpus →
  Core.as_documents corpus = Some ds →
  Core.update_with B add [] s = Core.db_add add (Core.split_documents B sp ds) s.
Proof.
  intros Hf Hsp Hc Hds. unfold Core.update_with, bind.
  rewrite check_is_fitted_fitted by (rewrite ?Hsp; eauto).
  change (Core._check_documents (Some []) s) with (Core._check_documents None s).
  rewrite (check_documents_own_valid s corpus ds) by done.
  by rewrite (split_self_documents_ok B s sp corpus ds).
Qed.

(** X11.  An [update] with the empty list is not a no-op.  An empty
    list is falsy, so what is validated is the instance's own corpus;
    and on a fitted instance with a valid corpus the chunks of that
    corpus are added to the index once more. *)
Theorem X11_update_empty_list (s : Core.State) (sp : Core.TextSplitter)
    (corpus : list Core.pyobj) (ds : list Core.Document) :
  fitted s →
  Core._splitter s = Some sp →
  Core.documents (Core.self s) = Some corpus →
  Core.as_documents corpus = Some ds →
  Core._check_documents (Some []) s = Core._check_documents None s ∧
  Core.update B [] s
    = Core.db_add (Core.Chroma_add_documents B) (Core.split_documents B sp ds) s ∧
  Core.aupdate B [] s
    = Core.db_add (Core.Chroma_aadd_documents B) (Core.split_documents B sp ds) s.
Proof.
  intros Hf Hsp Hc Hds. split; [done|].
  unfold Core.update, Core.aupdate.
  by rewrite !(update_with_empty _ s sp corpus ds).
Qed.

(** ** [from_persist_directory] *)

(** The arguments [from_persist_directory] passes on: the same, with no
    documents. *)
Lemma from_persist_directory_run (dir : string) (a : Core.init_args)
    (fresh_id : string) (w : Core.World) :
  match Core.Chroma_open B Core._CHROMA_COLLECTION_NAME (Core.arg_embedding a) dir with
  | Raise e => Core.from_persist_directory B dir a fresh_id w = (Raise e, w)
  | Return d =>
      ∃ i, Core.from_persist_directory B dir a fresh_id w
           = (Return i,
              {| Core.w_cls := {| Core.cls_is_fitted := true; Core.cls_db := Some d |};
                 Core.w_mem :=
                   {| Memory._store := delete None (Memory._store (Core.w_mem w));
                      Memory.heap := Memory.heap (Core.w_mem w) |};
                 Core.w_chroma := Core.w_chroma w |}) ∧
        Core.documents i = None ∧
        Core.own_db i = None ∧
        Core.own_is_fitted i = None ∧
        Core.own_splitter i
          = Some {| Core.chunk_size := 2000; Core.chunk_overlap := 100 |} ∧
        Core.own_session_id i = Some fresh_id
  end.
Proof.
  unfold Core.from_persist_directory, bind, call.
  destruct (Core.Chroma_open B _ _ dir) as [d|e]; [|done].
  eexists. split; [reflexivity|]. done.
Qed.

Lemma fit_with_no_documents from_documents (s : Core.State) :
  Core.documents (Core.self s) = None →
  Core.fit_with B from_documents s = (Raise Core.none_not_iterable, s).
Proof.
  intros Hc. unfold Core.fit_with, Core._check_documents, bind, get_state.
  cbn [Core.py_or]. by rewrite Hc.
Qed.

Lemma update_with_no_documents add (docs : list Core.pyobj) (s : Core.State) :
  Core.documents (Core.self s) = None →
  ∃ e, Core.update_with B add docs s = (Raise e, s).
Proof.
  intros Hc. unfold Core.update_with, bind.
  pose proof (check_is_fitted_state true s) as H1.
  destruct (Core._check_is_fitted true s) as [[[]|e1] s1];
    simpl in H1; subst s1; [|by eexists].
  pose proof (check_documents_state (Some docs) s) as H2.
  destruct (Core._check_documents (Some docs) s) as [[[]|e2] s2];
    simpl in H2; subst s2; [|by eexists].
  unfold Core.split_self_documents, bind, get_state.
  destruct (Core._splitter s); [|by eexists]. rewrite Hc. by eexists.
Qed.

(** X12.  An instance returned by [from_persist_directory] holds no
    documents, so nothing can change its index afterwards: [fit] and
    [afit] raise [TypeError] when they iterate over [None], and
    [update] and [aupdate] raise for every batch, each leaving the state
    as it was. *)
Theorem X12_loaded_instance_is_frozen (dir : string) (a : Core.init_args)
    (fresh_id : string) (w w' : Core.World) (i : Core.CloneLLM)
    (docs : list Core.pyobj) :
  Core.from_persist_directory B dir a fresh_id w = (Return i, w') →
  let s := Core.enter i w' in
  Core.documents i = None ∧
  Core.fit B s = (Raise Core.none_not_iterable, s) ∧
  Core.afit B s = (Raise Core.none_not_iterable, s) ∧
  (∃ e, Core.update B docs s = (Raise e, s)) ∧
  (∃ e, Core.aupdate B docs s = (Raise e, s)).
Proof.
  intros Hload s.
  assert (Core.documents i = None) as Hc.
  { pose proof (from_persist_directory_run dir a fresh_id w) as H.
    destruct (Core.Chroma_open B _ _ dir) as [d|e]; [|congruence].
    destruct H as (i' & Hrun & Hdocs & _). congruence. }
  split; [done|]. unfold Core.fit, Core.afit, Core.update, Core.aupdate.
  rewrite !fit_with_no_documents by done.
  split; [done|]. split; [done|].
  split; by apply update_with_no_documents.
Qed.

(** X13.  [from_persist_directory] assigns the index and the fitted flag
    to the class.  When the vector store cannot open the directory the
    error is passed on and nothing is assigned.  When it can, every
    instance the constructor makes afterwards reads the loaded index as
    its own [db] and passes the fitted check, without [fit]. *)
Theorem X13_loaded_index_is_class_wide (dir : string) (a a2 : Core.init_args)
    (fresh_id id2 : string) (w : Core.World) :
  (∀ e, Core.Chroma_open B Core._CHROMA_COLLECTION_NAME (Core.arg_embedding a) dir
          = Raise e →
        Core.from_persist_directory B dir a fresh_id w = (Raise e, w)) ∧
  (∀ i w', Core.from_persist_directory B dir a fresh_id w = (Return i, w') →
     ∃ d i2 w2,
       Core.db (Core.enter i w') = Some d ∧
       Core.CloneLLM_new a2 id2 w' = (Return i2, w2) ∧
       Core.own_db i2 = None ∧
       Core.db (Core.enter i2 w2) = Some d ∧
       Core.is_fitted (Core.enter i2 w2) = true ∧
       Core._check_is_fitted true (Core.enter i2 w2)
         = (Return tt, Core.enter i2 w2)).
Proof.
  pose proof (from_persist_directory_run dir a fresh_id w) as H.
  destruct (Core.Chroma_open B _ _ dir) as [d|e].
  - split; [done|]. intros i w' Hload.
    destruct H as (i' & Hrun & _ & Hown & Hflag & _).
    rewrite Hrun in Hload. injection Hload as -> <-.
    exists d. eexists _, _. split.
    { unfold Core.db. cbn. by rewrite Hown. }
    split; [reflexivity|]. done.
  - split; [by intros ? [= <-]|]. intros i w' Hload. congruence.
Qed.

(** X14.  An instance with no index of its own updates the index of the
    class: after its [update], every instance without an index of its
    own reads the index [add_documents] left.  An instance that was
    fitted updates its own index and leaves the class alone. *)
Theorem X14_update_shared_index (s : Core.State) (docs : list Core.pyobj)
    (given : list Core.Document) (sp : Core.TextSplitter)
    (corpus : list Core.pyobj) (ds : list Core.Document) (d : Core.Chroma) :
  Core.is_fitted s = true →
  Core.db s = Some d →
  Core._splitter s = Some sp →
  docs ≠ [] →
  Core.as_documents docs = Some given →
  Core.documents (Core.self s) = Some corpus →
  Core.as_documents corpus = Some ds →
  let r := Core.Chroma_add_documents B d (Core.split_documents B sp ds) in
  let s' := (Core.update B docs s).2 in
  (Core.update B docs s).1 = r.1 ∧
  Core.db s' = Some r.2 ∧
  (Core.own_db (Core.self s) = None →
     ∀ j, Core.own_db j = None → Core.db (seen_from j s') = Some r.2) ∧
  (is_Some (Core.own_db (Core.self s)) → Core.cls s' = Core.cls s).
Proof.
  intros Hf Hd Hsp Hne Hgiven Hc Hds r s'. unfold s', r, Core.update.
  assert (Core.update_with B (Core.Chroma_add_documents B) docs s
          = Core.db_add (Core.Chroma_add_documents B) (Core.split_documents B sp ds) s)
    as ->.
  { assert (fitted s) as Hfit by (split; eauto).
    unfold Core.update_with, bind.
    rewrite check_is_fitted_fitted by (rewrite ?Hsp; eauto).
    rewrite (check_documents_given_valid docs given) by done.
    by rewrite (split_self_documents_ok B s sp corpus ds). }
  unfold Core.db_add, Core.db in *.
  destruct (Core.own_db (Core.self s)) as [d0|] eqn:Hown.
  - injection Hd as ->.
    destruct (Core.Chroma_add_documents B d _) as [o d']. cbn.
    split; [done|]. split; [done|]. split; [done|]. done.
  - rewrite Hd.
    destruct (Core.Chroma_add_documents B d _) as [o d']. cbn. rewrite Hown. cbn.
    split; [done|]. split; [done|]. split.
    + intros _ j Hj. by rewrite Hj.
    + by intros [? ?].
Qed.

(** ** [completion] and the life of an instance *)

Lemma get_retriever_state (s : Core.State) : (Core._get_retriever s).2 = s.
Proof. unfold Core._get_retriever, bind, get_state. by destruct (Core.db s). Qed.

Lemma read_llm_state (s : Core.State) : (Core.read_llm s).2 = s.
Proof.
  unfold Core.read_llm, bind, get_state. by destruct (Core.own_llm (Core.self s)).
Qed.

Lemma get_rag_chain_state (s : Core.State) : (Core._get_rag_chain B s).2 = s.
Proof.
  unfold Core._get_rag_chain, bind at 1, get_state. unfold bind.
  pose proof (get_retriever_state s) as H1.
  destruct (Core._get_retriever s) as [[r|e] s1]; simpl in H1; subst s1; [|done].
  pose proof (read_llm_state s) as H2.
  by destruct (Core.read_llm s) as [[l|e] s2]; simpl in H2; subst s2.
Qed.

Lemma get_rag_chain_with_history_state (s : Core.State) :
  (Core._get_rag_chain_with_history B s).2 = s.
Proof.
  unfold Core._get_rag_chain_with_history, bind at 1, get_state. unfold bind.
  pose proof (read_llm_state s) as H2.
  destruct (Core.read_llm s) as [[l|e] s2]; simpl in H2; subst s2; [|done].
  pose proof (get_retriever_state s) as H1.
  by destruct (Core._get_retriever s) as [[r|e] s1]; simpl in H1; subst s1.
Qed.

(** A call into [memory.py] touches neither the class nor the
    instance. *)
Lemma lift_mem_frame {A} (c : M Memory.state A) (s : Core.State) :
  Core.cls (Core.lift_mem c s).2 = Core.cls s ∧
  Core.self (Core.lift_mem c s).2 = Core.self s.
Proof. unfold Core.lift_mem. by destruct (c (Core.mem s)). Qed.

Lemma invoke_with_history_frame hinv c prompt sid (s : Core.State) :
  Core.cls (Core.invoke_with_history hinv c prompt sid s).2 = Core.cls s ∧
  Core.self (Core.invoke_with_history hinv c prompt sid s).2 = Core.self s.
Proof.
  unfold Core.invoke_with_history, bind, get_state, call, ret.
  pose proof (lift_mem_frame (Memory.get_history sid) s) as H1.
  destruct (Core.lift_mem _ s) as [[l|e] s1]; simpl in H1; [|exact H1].
  destruct (hinv _ _ _ _ _ _ _) as [answer|e]; [|exact H1].
  pose proof (lift_mem_frame
    (Memory.add_messages_at l [Memory.HumanMessage prompt; Memory.AIMessage answer]) s1)
    as H2.
  destruct (Core.lift_mem _ s1) as [[[]|e] s2]; simpl in H2; simpl;
    destruct H1, H2; split; congruence.
Qed.

Lemma completion_with_frame inv hinv prompt (s : Core.State) :
  Core.cls (Core.completion_with B inv hinv prompt s).2 = Core.cls s ∧
  Core.self (Core.completion_with B inv hinv prompt s).2 = Core.self s ∧
  (Core.memory_truthy (Core.memory (Core.self s)) = false →
   (Core.completion_with B inv hinv prompt s).2 = s).
Proof.
  unfold Core.completion_with, bind, get_state, call.
  pose proof (check_is_fitted_state false s) as H1.
  destruct (Core._check_is_fitted false s) as [[[]|e1] s1];
    simpl in H1; subst s1; [|done].
  destruct (Core.memory_truthy (Core.memory (Core.self s))).
  - pose proof (get_rag_chain_with_history_state s) as H2.
    destruct (Core._get_rag_chain_with_history B s) as [[c|e] s2];
      simpl in H2; subst s2; [|done].
    destruct (invoke_with_history_frame hinv c prompt (Core._session_id s) s).
    by repeat split.
  - pose proof (get_rag_chain_state s) as H2.
    by destruct (Core._get_rag_chain B s) as [[c|e] s2]; simpl in H2; subst s2.
Qed.

(** X15.  [completion] and [acompletion] never change the instance or
    the class, whether they return or raise: the index, the fitted
    flags, the session id and every field are as before.  With
    [memory] off they change nothing at all, also when the instance is
    not fitted or a collaborator raises. *)
Theorem X15_completion_changes_no_persona (prompt : string) (s : Core.State) :
  Core.cls (Core.completion B prompt s).2 = Core.cls s ∧
  Core.self (Core.completion B prompt s).2 = Core.self s ∧
  Core.cls (Core.acompletion B prompt s).2 = Core.cls s ∧
  Core.self (Core.acompletion B prompt s).2 = Core.self s ∧
  (Core.memory_truthy (Core.memory (Core.self s)) = false →
     (Core.completion B prompt s).2 = s ∧
     (Core.acompletion B prompt s).2 = s).
Proof.
  unfold Core.completion, Core.acompletion.
  destruct (completion_with_frame (Core.rag_invoke B) (Core.history_invoke B) prompt s)
    as (? & ? & ?).
  destruct (completion_with_frame (Core.rag_ainvoke B) (Core.history_ainvoke B) prompt s)
    as (? & ? & ?).
  repeat split; auto.
Qed.

Lemma fit_with_initialized fd (s : Core.State) :
  initialized s → initialized (Core.fit_with B fd s).2.
Proof.
  intros Hs.
  destruct (fit_with_outcome fd s)
    as [(e & b' & ->)|(? & ? & ? & ? & ? & _ & _ & _ & _ & ->)]; exact Hs.
Qed.

Lemma update_with_initialized add docs (s : Core.State) :
  initialized s → initialized (Core.update_with B add docs s).2.
Proof.
  intros (Hl & Hsp & Hid).
  assert (same_but_index s (Core.update_with B add docs s).2) as H.
  { destruct (update_with_outcome add docs s) as [[e ->]|[chunks [_ ->]]].
    - apply same_but_index_refl.
    - apply db_add_same_but_index. }
  destruct H as (_ & _ & _ & _ & Hid' & Hsp' & Hl' & _).
  unfold initialized, Core._splitter, Core._session_id in *.
  by rewrite Hid', Hsp', Hl'.
Qed.

Lemma completion_with_initialized inv hinv prompt (s : Core.State) :
  initialized s → initialized (Core.completion_with B inv hinv prompt s).2.
Proof.
  intros Hs. destruct (completion_with_frame inv hinv prompt s) as (_ & Hself & _).
  unfold initialized, Core._splitter, Core._session_id in *. by rewrite Hself.
Qed.

Lemma run_op_initialized (o : Core.op) (s : Core.State) :
  initialized s → initialized (Core.run_op B o s).2.
Proof.
  intros Hs. destruct o as [| |docs|docs|prompt|prompt|fresh_id]; cbn [Core.run_op].
  - by apply fit_with_initialized.
  - by apply fit_with_initialized.
  - by apply update_with_initialized.
  - by apply update_with_initialized.
  - pose proof (completion_with_initialized (Core.rag_invoke B) (Core.history_invoke B)
                  prompt s Hs) as H.
    unfold Core.completion. by destruct (Core.completion_with _ _ _ _ _).
  - pose proof (completion_with_initialized (Core.rag_ainvoke B) (Core.history_ainvoke B)
                  prompt s Hs) as H.
    unfold Core.acompletion. by destruct (Core.completion_with _ _ _ _ _).
  - destruct Hs as (Hl & Hsp & _). rewrite clear_memory_run.
    split; [exact Hl|]. split; [exact Hsp|]. by eexists.
Qed.

(** X16.  The constructor leaves every instance with a model handle,
    the splitter of chunk size 2000 and overlap 100, and the new session
    id; no sequence of calls removes any of them.  So the extra test of
    [_check_is_fitted] for [update], that the splitter is set, never
    decides: both forms of the check agree on every such instance. *)
Theorem X16_initialized_invariant :
  (∀ a fresh_id w,
     initialized (constructed a fresh_id w) ∧
     Core._session_id (constructed a fresh_id w) = Some fresh_id) ∧
  (∀ ops s, initialized s → initialized (Core.run_ops B ops s)) ∧
  (∀ s, initialized s → Core._check_is_fitted true s = Core._check_is_fitted false s).
Proof.
  split; [|split].
  - intros a fresh_id w. split; [|done]. unfold initialized, constructed.
    cbn. split; [by eexists|]. split; [done|by eexists].
  - intros ops. induction ops as [|o rest IH]; intros s Hs; [done|].
    cbn [Core.run_ops]. apply IH. by apply run_op_initialized.
  - intros s (_ & Hsp & _). unfold Core._check_is_fitted, bind, get_state.
    by rewrite Hsp.
Qed.

(** X17.  An instance made by the constructor while the class holds no
    index cannot answer or be updated until a [fit] returns: after any
    calls among which no [fit] or [afit] returned, also failed ones,
    [completion] and [update] still raise the not-fitted error and
    change nothing. *)
Theorem X17_no_answer_before_fit (a : Core.init_args) (fresh_id : string)
    (w : Core.World) (ops : list Core.op) (prompt : string) (docs : list Core.pyobj) :
  Core.cls_db (Core.w_cls w) = None →
  Core.no_fit_returned B ops (constructed a fresh_id w) = true →
  let s := Core.run_ops B ops (constructed a fresh_id w) in
  Core.completion B prompt s
    = (Raise (AttributeError Core.not_fitted_message), s) ∧
  Core.update B docs s = (Raise (AttributeError Core.not_fitted_message), s).
Proof.
  intros Hw Hno s.
  assert (not_fitted s) as Hs.
  { right. apply run_ops_db_None; [|done]. unfold constructed, Core.db. by cbn. }
  destruct (not_fitted_calls_raise B s prompt docs Hs) as (Hc & _ & Hu & _).
  by split.
Qed.

(** X18.  [fit] and then [completion], with [memory] off: when the
    corpus is valid and the vector store returns an index [d], the
    completion that follows is one invocation of the chain over [d]
    with [k = 1] and the model of the instance, and it leaves the
    fitted state as it is. *)
Theorem X18_fit_then_completion (s : Core.State) (sp : Core.TextSplitter)
    (corpus : list Core.pyobj) (ds : list Core.Document) (d : Core.Chroma)
    (b' : Core.Backend) (llm : Core.ChatLiteLLM) (prompt : string) :
  Core._splitter s = Some sp →
  Core.documents (Core.self s) = Some corpus →
  Core.as_documents corpus = Some ds →
  Core.Chroma_from_documents B (Core.chroma s) (Core.split_documents B sp ds)
    (Core.embedding (Core.self s)) Core._CHROMA_COLLECTION_NAME = (Return d, b') →
  Core.own_llm (Core.self s) = Some llm →
  Core.memory_truthy (Core.memory (Core.self s)) = false →
  let s' := (Core.fit B s).2 in
  ∃ c, Core.rs_retriever c = {| Core.vectorstore := d; Core.search_k := 1 |} ∧
    Core.rs_llm c = llm ∧
    Core.rs_prompt c
      = Core.context_prompt B ++ profile_part B (Core.self s) ++ Core.question_prompt B ∧
    Core.completion B prompt s'
      = (Core.rag_invoke B d 1 (Core.rs_prompt c) llm prompt, s').
Proof.
  intros Hsp Hc Hds Hd Hl Hm s'. unfold s', Core.fit.
  rewrite (fit_with_success _ s sp corpus ds d b') by done. cbn [snd].
  set (s1 := {| Core.cls := Core.cls s;
                Core.self := Core.with_is_fitted true (Core.with_db d (Core.self s));
                Core.mem := Core.mem s;
                Core.chroma := b' |}).
  destruct (stateless_completion_run B s1 prompt d llm)
    as (c & Hchain & Hr & Hrun); try done.
  exists c. split; [done|].
  assert (Core.rs_llm c = llm ∧
          Core.rs_prompt c = Core.context_prompt B ++ profile_part B (Core.self s)
                             ++ Core.question_prompt B) as [Hllm Hp].
  { revert Hchain. unfold Core._get_rag_chain, bind at 1, get_state. unfold bind.
    rewrite (get_retriever_ok s1 d), (read_llm_ok s1 llm) by done.
    unfold ret. intros [= <-]. cbn. split; [done|]. unfold profile_part.
    destruct (Core.user_profile_truthy (Core.user_profile (Core.self s)));
      by rewrite <- ?app_assoc. }
  split; [done|]. split; [done|].
  unfold Core.completion. rewrite Hrun. unfold Core.invoke_rag. by rewrite Hr, Hllm.
Qed.

End MoreOrchestrator.

(** ** The further properties on a run *)

Lemma X7_check_documents_decides_witness :
  (Core._check_documents (Some [Core.PyDocument doc1; Core.PyDocument doc2])
     persona_new).1 = Return tt ∧
  (Core._check_documents (Some bad_batch) persona_new).1
    = Raise (ValueError "document at index 1 is not a valid Document").
Proof.
  split.
  - apply (proj1 (proj2 (X7_check_documents_decides
             [Core.PyDocument doc1; Core.PyDocument doc2] persona_new
             ltac:(discriminate)))).
    repeat constructor.
  - apply (proj2 (proj2 (X7_check_documents_decides bad_batch persona_new
             ltac:(discriminate))) 1).
    apply bad_batch_first_invalid.
Defined.

Lemma X8_fit_success_witness :
  (Core.fit list_backend persona_new).1 = Return tt ∧
  Core.chunks <$> Core.db (Core.fit list_backend persona_new).2 = Some [doc1] ∧
  Core.is_fitted (Core.fit list_backend persona_new).2 = true.
Proof.
  destruct (X8_fit_success list_backend persona_new
              {| Core.chunk_size := 2000; Core.chunk_overlap := 100 |}
              [Core.PyDocument doc1] [doc1]
              {| Core.collection_name := "clonellm";
                 Core.embedding_function :=
                   {| Core.embedding_name := "text-embedding-3-small" |};
                 Core.persist_directory := None;
                 Core.chunks := [doc1] |}
              (<["clonellm" := [doc1]]> ∅)
              eq_refl eq_refl eq_refl eq_refl) as (Hr & Hd & Hf & _).
  split; [exact Hr|]. split; [|exact Hf]. rewrite Hd. reflexivity.
Defined.

Lemma X11_update_empty_list_witness :
  Core.chunks <$> Core.db (Core.update list_backend [] persona_fitted).2
  = Some [doc1; doc1].
Proof.
  rewrite (proj1 (proj2 (X11_update_empty_list list_backend persona_fitted
             {| Core.chunk_size := 2000; Core.chunk_overlap := 100 |}
             [Core.PyDocument doc1] [doc1]
             ltac:(split; [reflexivity | vm_compute; eauto])
             eq_refl eq_refl eq_refl))).
  reflexivity.
Defined.

Lemma X12_loaded_instance_is_frozen_witness :
  Core.fit list_backend persona_loaded
    = (Raise Core.none_not_iterable, persona_loaded) ∧
  ∃ e, Core.update list_backend [Core.PyDocument doc2] persona_loaded
       = (Raise e, persona_loaded).
Proof.
  destruct (X12_loaded_instance_is_frozen list_backend "./chroma"
              (sample_args None None) "id-0" fresh_world
              (Core.world_of persona_loaded) (Core.self persona_loaded)
              [Core.PyDocument doc2] eq_refl) as (_ & Hfit & _ & Hup & _).
  split; [exact Hfit|exact Hup].
Defined.

Lemma X13_loaded_index_is_class_wide_witness :
  Core.own_db (Core.self persona_after_load) = None ∧
  Core.is_fitted persona_after_load = true ∧
  Core.db persona_after_load = Core.db persona_loaded ∧
  is_Some (Core.db persona_after_load).
Proof.
  destruct (proj2 (X13_loaded_index_is_class_wide list_backend "./chroma"
              (sample_args None None)
              (sample_args (Some [Core.PyDocument doc2]) None)
              "id-0" "id-1" fresh_world)
              (Core.self persona_loaded) (Core.world_of persona_loaded) eq_refl)
    as (d & i2 & w2 & Hd & Hnew & Hown & Hd2 & Hf & _).
  injection Hnew as <- <-.
  split; [exact Hown|]. split; [exact Hf|]. split.
  - transitivity (Some d); [exact Hd2|symmetry; exact Hd].
  - exists d. exact Hd2.
Defined.

Lemma X14_update_shared_index_witness :
  Core.chunks <$>
    Core.db (seen_from (Core.self persona_loaded)
               (Core.update list_backend [Core.PyDocument doc1] persona_after_load).2)
  = Some [doc2].
Proof.
  rewrite (proj1 (proj2 (proj2 (X14_update_shared_index list_backend
             persona_after_load [Core.PyDocument doc1] [doc1]
             {| Core.chunk_size := 2000; Core.chunk_overlap := 100 |}
             [Core.PyDocument doc2] [doc2]
             {| Core.collection_name := "clonellm";
                Core.embedding_function :=
                  {| Core.embedding_name := "text-embedding-3-small" |};
                Core.persist_directory := Some "./chroma";
                Core.chunks := [] |}
             eq_refl eq_refl eq_refl ltac:(discriminate) eq_refl eq_refl eq_refl)))
           eq_refl (Core.self persona_loaded) eq_refl).
  reflexivity.
Defined.

Lemma X17_no_answer_before_fit_witness :
  Core.completion list_backend "Who are you?"
    (Core.run_ops list_backend [Core.Fit; Core.ClearMemory "id-1"] persona_bad)
  = (Raise (AttributeError Core.not_fitted_message),
     Core.run_ops list_backend [Core.Fit; Core.ClearMemory "id-1"] persona_bad).
Proof.
  exact (proj1 (X17_no_answer_before_fit list_backend
                  (sample_args (Some bad_batch) None) "id-0" fresh_world
                  [Core.Fit; Core.ClearMemory "id-1"] "Who are you?" []
                  eq_refl eq_refl)).
Defined.

Lemma X18_fit_then_completion_witness :
  Core.completion list_backend "Who are you?" (Core.fit list_backend persona_new).2
  = (Return "Who are you?", (Core.fit list_backend persona_new).2).
Proof.
  destruct (X18_fit_then_completion list_backend persona_new
              {| Core.chunk_size := 2000; Core.chunk_overlap := 100 |}
              [Core.PyDocument doc1] [doc1]
              {| Core.collection_name := "clonellm";
                 Core.embedding_function :=
                   {| Core.embedding_name := "text-embedding-3-small" |};
                 Core.persist_directory := None;
                 Core.chunks := [doc1] |}
              (<["clonellm" := [doc1]]> ∅)
              {| Core.llm_model := "gpt-4o"; Core.llm_api_key := None |}
              "Who are you?" eq_refl eq_refl eq_refl eq_refl eq_refl eq_refl)
    as (c & _ & _ & _ & Hrun).
  exact Hrun.
Defined.

(** With the reference collaborators a second [fit] adds to the
    collection the first one filled: its index holds the corpus
    twice. *)
Example second_fit_holds_earlier_documents :
  Core.chunks <$> Core.db (Core.fit list_backend (Core.fit list_backend persona_new).2).2
  = Some [doc1; doc1].
Proof. reflexivity. Qed.
